(** * The PubMed notebook ([biosearch_scraper.ipynb]) as a shallow embedding

    The notebook defines [search_articles] and [article_details] on top of
    [Bio.Entrez].  Both are short Python functions working on dynamically
    typed values and talking to a remote service.  The embedding has three
    layers:

    - [pyval]: the Python values the two functions handle, with the
      dynamic operations the code applies to them (subscript, [dict.get],
      iteration, [str.join], [str()] / f-string rendering), each raising the
      exception Python raises;
    - [prog]: a program that calls [Entrez.esearch], [Entrez.esummary] and
      [Entrez.read]; [run] executes it against a service, which is any state
      machine answering those calls (or raising);
    - the two functions themselves, statement by statement.

    The table join of the statistics example is not part of the sources at
    hand; it is modelled separately in [Module Tabulator]. *)

From Stdlib Require Import ZArith Lia Ascii String.
From stdpp Require Import base list strings gmap pretty.

#[local] Set Warnings "-register-all".


(** ** Python values *)

(** Dict keys are strings (the only keys the notebook and the parsed Entrez
    records use); a dict is kept as an association list in insertion order,
    as Python dicts are.  A character of a [string] stands for a code point
    below 256. *)
Inductive pyval : Type :=
| PNone
| PBool (b : bool)
| PInt (n : Z)
| PStr (s : string)
| PList (items : list pyval)
| PTuple (items : list pyval)
| PDict (entries : list (string * pyval)).

Abbreviation pydict := (list (string * pyval)).

(** The exceptions in play, by Python class.  [LibraryError cls] is an
    exception raised inside a [Bio.Entrez] call (urllib's [HTTPError], the
    parser's [CorruptedXMLError], ...), named by its class. *)
Inductive exn : Type :=
| KeyError (key : string)
| TypeError
| AttributeError
| LibraryError (cls : string).

Definition exn_class (e : exn) : string :=
  match e with
  | KeyError _ => "KeyError"
  | TypeError => "TypeError"
  | AttributeError => "AttributeError"
  | LibraryError cls => cls
  end.

Inductive result (A : Type) : Type :=
| Ok (a : A)
| Raise (e : exn).
Arguments Ok {A} a.
Arguments Raise {A} e.

Definition result_bind {A B} (f : A → result B) (r : result A) : result B :=
  match r with
  | Ok a => f a
  | Raise e => Raise e
  end.

#[global] Instance result_ret : MRet result := @Ok.
#[global] Instance result_mbind : MBind result := @result_bind.

(** ** Dictionaries *)

Fixpoint dict_lookup (key : string) (d : pydict) : option pyval :=
  match d with
  | [] => None
  | (k, v) :: d' => if decide (k = key) then Some v else dict_lookup key d'
  end.

Definition dict_keys (d : pydict) : list string := d.*1.

(** ** Dynamic operations *)

(** [obj[key]] with a string key. *)
Definition getitem (obj : pyval) (key : string) : result pyval :=
  match obj with
  | PDict d =>
      match dict_lookup key d with
      | Some v => Ok v
      | None => Raise (KeyError key)
      end
  | _ => Raise TypeError
  end.

(** [obj.get(key, default)]: only dicts have the method. *)
Definition get (obj : pyval) (key : string) (default : pyval) : result pyval :=
  match obj with
  | PDict d =>
      match dict_lookup key d with
      | Some v => Ok v
      | None => Ok default
      end
  | _ => Raise AttributeError
  end.

Fixpoint chars (s : string) : list string :=
  match s with
  | EmptyString => []
  | String c s' => String c EmptyString :: chars s'
  end.

(** What a [for] loop (or [str.join]) sees when it iterates over a value. *)
Definition iter (obj : pyval) : result (list pyval) :=
  match obj with
  | PList items | PTuple items => Ok items
  | PStr s => Ok (PStr <$> chars s)
  | PDict d => Ok (PStr <$> dict_keys d)
  | PNone | PBool _ | PInt _ => Raise TypeError
  end.

Fixpoint all_str (items : list pyval) : result (list string) :=
  match items with
  | [] => Ok []
  | PStr s :: items' => ss ← all_str items'; Ok (s :: ss)
  | _ :: _ => Raise TypeError
  end.

Fixpoint join (sep : string) (ss : list string) : string :=
  match ss with
  | [] => ""
  | [s] => s
  | s :: ss' => s +:+ sep +:+ join sep ss'
  end.

(** [sep.join(obj)]: every item of the iterable must be a [str]. *)
Definition str_join (sep : string) (obj : pyval) : result string :=
  items ← iter obj; ss ← all_str items; Ok (join sep ss).

(** ** [repr] and [str] *)

Definition hex_digit (n : N) : ascii :=
  match n with
  | 0 => "0" | 1 => "1" | 2 => "2" | 3 => "3" | 4 => "4" | 5 => "5"
  | 6 => "6" | 7 => "7" | 8 => "8" | 9 => "9" | 10 => "a" | 11 => "b"
  | 12 => "c" | 13 => "d" | 14 => "e" | _ => "f"
  end%N%char.

Definition backslash : ascii := "\"%char.
Definition squote : ascii := "'"%char.
Definition dquote : ascii := "034"%char.

Definition hex_escape (c : ascii) : string :=
  let n := N_of_ascii c in
  String backslash (String "x" (String (hex_digit (n / 16)) (String (hex_digit (n mod 16)) ""))).

(** [str.isprintable] on the code points below 256: the controls, the
    no-break space and the soft hyphen are not printable. *)
Definition printable (c : ascii) : bool :=
  let n := N_of_ascii c in
  ((32 <=? n) && (n <? 127) || (161 <=? n) && negb (n =? 173))%N.

Definition repr_char (quote : ascii) (c : ascii) : string :=
  if decide (c = quote ∨ c = backslash) then String backslash (String c "")
  else if decide (c = "009"%char) then String backslash "t"
  else if decide (c = "010"%char) then String backslash "n"
  else if decide (c = "013"%char) then String backslash "r"
  else if printable c then String c ""
  else hex_escape c.

Fixpoint repr_chars (quote : ascii) (s : string) : string :=
  match s with
  | EmptyString => ""
  | String c s' => repr_char quote c +:+ repr_chars quote s'
  end.

Fixpoint contains (c : ascii) (s : string) : bool :=
  match s with
  | EmptyString => false
  | String c' s' => bool_decide (c' = c) || contains c s'
  end.

(** [repr] of a [str]: single quotes, unless the text has a single quote
    and no double quote. *)
Definition str_repr (s : string) : string :=
  let quote := if contains squote s && negb (contains dquote s) then dquote else squote in
  String quote (repr_chars quote s) +:+ String quote "".

Fixpoint pyrepr (v : pyval) : string :=
  match v with
  | PNone => "None"
  | PBool true => "True"
  | PBool false => "False"
  | PInt n => pretty n
  | PStr s => str_repr s
  | PList items => "[" +:+ join ", " (pyrepr <$> items) +:+ "]"
  | PTuple [item] => "(" +:+ pyrepr item +:+ ",)"
  | PTuple items => "(" +:+ join ", " (pyrepr <$> items) +:+ ")"
  | PDict d =>
      "{" +:+ join ", " ((λ kv, str_repr kv.1 +:+ ": " +:+ pyrepr kv.2) <$> d) +:+ "}"
  end.

(** [str(v)], which is also what [f"{v}"] renders. *)
Definition pystr (v : pyval) : string :=
  match v with
  | PStr s => s
  | _ => pyrepr v
  end.

(** ** Programs over the Entrez service *)

(** What [Entrez.esearch] and [Entrez.esummary] hand back: an open response,
    taken here as its raw text. *)
Definition handle : Type := string.

(** The three library calls the notebook's functions make, indexed by what
    each returns. *)
Inductive EntrezE : Type → Type :=
| esearch (db term : string) (retmax : pyval) : EntrezE handle
| esummary (db id : string) : EntrezE handle
| read (h : handle) : EntrezE pyval.

Inductive prog (A : Type) : Type :=
| Return (r : result A)
| Vis {X : Type} (e : EntrezE X) (k : X → prog A).
Arguments Return {A} r.
Arguments Vis {A X} e k.

Fixpoint prog_bind {A B} (f : A → prog B) (p : prog A) : prog B :=
  match p with
  | Return (Ok a) => f a
  | Return (Raise e) => Return (Raise e)
  | Vis e k => Vis e (λ x, prog_bind f (k x))
  end.

#[global] Instance prog_ret : MRet prog := λ A a, Return (Ok a).
#[global] Instance prog_mbind : MBind prog := @prog_bind.

Definition call {X} (e : EntrezE X) : prog X := Vis e (λ x, Return (Ok x)).
Definition lift {A} (r : result A) : prog A := Return r.

(** A service answers each call from its current state, with a value or
    an exception, and moves to a next state. *)
Record service (St : Type) : Type := Service {
  serve : ∀ X, EntrezE X → St → result X * St
}.
Arguments Service {St} serve.
Arguments serve {St} svc {X} e s : rename.

(** No function of the notebook catches anything: the first exception ends
    the run. *)
Fixpoint run {St A} (svc : service St) (p : prog A) (s : St) : result A * St :=
  match p with
  | Return r => (r, s)
  | Vis e k =>
      match serve svc e s with
      | (Ok x, s') => run svc (k x) s'
      | (Raise ex, s') => (Raise ex, s')
      end
  end.

(** The calls a run makes, in order: the same service, keeping a log. *)
Definition request : Type := sigT EntrezE.
Definition Request {X} (e : EntrezE X) : request := existT X e.

Definition logged {St} (svc : service St) : service (St * list request) :=
  Service (λ X e st,
    let '(r, s') := serve svc e st.1 in (r, (s', st.2 ++ [Request e]))).

Definition calls {St A} (svc : service St) (p : prog A) (s : St) : list request :=
  (run (logged svc) p (s, [])).2.2.

(** ** The notebook's functions *)

Definition max_results_default : pyval := PInt 10.

(** [def search_articles(key_words, date, max_results=10)]; [None] for
    [max_results] is a call that leaves the argument out. *)
Definition search_articles (key_words date : pyval) (max_results : option pyval)
  : prog pyval :=
  let max_results := default max_results_default max_results in
  let term := pystr key_words +:+ "[Title/Abstract] AND " +:+ pystr date +:+ "[PDAT]" in
  search ← call (esearch "pubmed" term max_results);
  record_search ← call (read search);
  lift (getitem record_search "IdList").

(** The dict literal in the loop body of [article_details]; its items are
    evaluated top to bottom. *)
Definition article_info (article : pyval) : result pydict :=
  id ← getitem article "Id";
  title ← getitem article "Title";
  author_list ← getitem article "AuthorList";
  pub_date ← getitem article "PubDate";
  doi ← get article "DOI" (PStr "No disponible");
  id' ← getitem article "Id";
  Ok [("ID", id);
      ("Title", title);
      ("AuthorList", author_list);
      ("PubDate", pub_date);
      ("DOI", doi);
      ("Link PubMed", PStr ("https://www.ncbi.nlm.nih.gov/pubmed/" +:+ pystr id'))].

(** [for article in record_summary: ... articles_info.append(article_info)] *)
Fixpoint for_article (articles : list pyval) (articles_info : list pydict)
  : result (list pydict) :=
  match articles with
  | [] => Ok articles_info
  | article :: rest =>
      info ← article_info article;
      for_article rest (articles_info ++ [info])
  end.

Definition article_details (id_list : pyval) : prog (list pydict) :=
  ids ← lift (str_join "," id_list);
  summary ← call (esummary "pubmed" ids);
  record_summary ← call (read summary);
  articles ← lift (iter record_summary);
  lift (for_article articles []).

(** Cell 20: the query. *)
Definition key_words : pyval := PList [PStr "cancer"; PStr "brain"].
Definition date : pyval := PStr "2023".

(** Cells 20 and 21: search with the default page size, then fetch the
    details of what was found. *)
Definition pipeline (key_words date : pyval) : prog (list pydict) :=
  id_list ← search_articles key_words date None;
  article_details id_list.

(** ** Vocabulary for the statements *)

(** The service answers the summary request for [id_list] with the records
    [articles], going from state [s] to [s']. *)
Definition summary_response {St} (svc : service St) (s : St) (id_list : pyval)
    (articles : list pyval) (s' : St) : Prop :=
  ∃ ids summary s1 record_summary,
    str_join "," id_list = Ok ids ∧
    serve svc (esummary "pubmed" ids) s = (Ok summary, s1) ∧
    serve svc (read summary) s1 = (Ok record_summary, s') ∧
    iter record_summary = Ok articles.

(** The keys [article_details] reads with a subscript, in reading order, and
    the keys of the rows it builds. *)
Definition required_keys : list string := ["Id"; "Title"; "AuthorList"; "PubDate"].
Definition row_keys : list string :=
  ["ID"; "Title"; "AuthorList"; "PubDate"; "DOI"; "Link PubMed"].

Definition missing_key (d : pydict) : option string :=
  head (filter (λ key, dict_lookup key d = None) required_keys).

Definition well_formed (article : pyval) : Prop :=
  ∃ d, article = PDict d ∧ missing_key d = None.

Definition malformed (article : pyval) (key : string) : Prop :=
  ∃ d, article = PDict d ∧ missing_key d = Some key.

(** *** What is assumed of PubMed where a statement needs it *)

Definition is_digit (c : ascii) : bool :=
  let n := N_of_ascii c in ((48 <=? n) && (n <=? 57))%N.

Fixpoint digits (s : string) : bool :=
  match s with
  | EmptyString => true
  | String c s' => is_digit c && digits s'
  end.

(** A UID is an integer, written in decimal. *)
Definition is_uid (v : pyval) : Prop := ∃ s, v = PStr s ∧ s ≠ "" ∧ digits s = true.

Fixpoint commas (s : string) : nat :=
  match s with
  | EmptyString => 0
  | String c s' => (if decide (c = ","%char) then 1 else 0) + commas s'
  end.

(** How many UIDs a comma-separated [id] parameter names. *)
Definition id_count (id : string) : nat := S (commas id).

(** A search asked for at most [n] results lists at most [n] items. *)
Definition honours_retmax {St} (svc : service St) : Prop :=
  ∀ s db term n search s1 record_search s2 id_list,
    serve svc (esearch db term (PInt n)) s = (Ok search, s1) →
    serve svc (read search) s1 = (Ok record_search, s2) →
    getitem record_search "IdList" = Ok id_list →
    ∃ items, id_list = PList items ∧ (Z.of_nat (length items) ≤ n)%Z.

Definition lists_uids {St} (svc : service St) : Prop :=
  ∀ s db term retmax search s1 record_search s2 items,
    serve svc (esearch db term retmax) s = (Ok search, s1) →
    serve svc (read search) s1 = (Ok record_search, s2) →
    getitem record_search "IdList" = Ok (PList items) →
    Forall is_uid items.

(** A summary holds at most one record per UID asked for. *)
Definition one_docsum_per_uid {St} (svc : service St) : Prop :=
  ∀ s db id summary s1 record_summary s2 articles,
    serve svc (esummary db id) s = (Ok summary, s1) →
    serve svc (read summary) s1 = (Ok record_summary, s2) →
    iter record_summary = Ok articles →
    length articles ≤ id_count id.

(** ** A sample service *)

(** A stand-in for PubMed, built from the first records of the notebook's
    recorded output.  Its state counts the calls served.  It knows one
    search result (two UIDs, or none when fewer than two are asked for) and
    two summaries: the two records found, and a batch of three whose middle
    record comes without its [PubDate]. *)
Module Sample.

Definition docsum_38370347 : pyval :=
  PDict [("Id", PStr "38370347");
         ("PubDate", PStr "2023");
         ("Source", PStr "Front Oncol");
         ("AuthorList", PList [PStr "Buczek D"; PStr "Zaucha R"; PStr "Jassem J"]);
         ("Title", PStr "Neurotoxicity-sparing radiotherapy for brain metastases in breast cancer: a narrative review.");
         ("DOI", PStr "10.3389/fonc.2023.1215426")].

Definition docsum_38328712 : pyval :=
  PDict [("Id", PStr "38328712");
         ("PubDate", PStr "2024 Jan");
         ("Source", PStr "Cancer Lett");
         ("AuthorList", PList [PStr "Liu Z"; PStr "Dong S"; PStr "Liu M"]);
         ("Title", PStr "Experimental models for cancer brain metastasis.")].

Definition docsum_38303306 : pyval :=
  PDict [("Id", PStr "38303306");
         ("AuthorList", PList [PStr "Hikino H"; PStr "Otani A"; PStr "Makino Y"; PStr "Murata Y"]);
         ("Title", PStr "[A Case of Breast Cancer Brain Metastases]")].

Definition found : pyval := PList [PStr "38370347"; PStr "38328712"].
Definition batch : pyval := PList [PStr "38370347"; PStr "38303306"; PStr "38328712"].

Definition found_docsums : list pyval := [docsum_38370347; docsum_38328712].

(** The table the notebook builds from [found_docsums]. *)
Definition found_rows : list pydict :=
  [[("ID", PStr "38370347");
    ("Title", PStr "Neurotoxicity-sparing radiotherapy for brain metastases in breast cancer: a narrative review.");
    ("AuthorList", PList [PStr "Buczek D"; PStr "Zaucha R"; PStr "Jassem J"]);
    ("PubDate", PStr "2023");
    ("DOI", PStr "10.3389/fonc.2023.1215426");
    ("Link PubMed", PStr "https://www.ncbi.nlm.nih.gov/pubmed/38370347")];
   [("ID", PStr "38328712");
    ("Title", PStr "Experimental models for cancer brain metastasis.");
    ("AuthorList", PList [PStr "Liu Z"; PStr "Dong S"; PStr "Liu M"]);
    ("PubDate", PStr "2024 Jan");
    ("DOI", PStr "No disponible");
    ("Link PubMed", PStr "https://www.ncbi.nlm.nih.gov/pubmed/38328712")]].
Definition batch_docsums : list pyval :=
  [docsum_38370347; docsum_38303306; docsum_38328712].

Definition answer {X} (e : EntrezE X) : result X :=
  match e in EntrezE X return result X with
  | esearch _ _ (PInt n) =>
      if decide (2 ≤ n)%Z then Ok "esearch:2"
      else if decide (0 ≤ n)%Z then Ok "esearch:0"
      else Raise (LibraryError "HTTPError")
  | esearch _ _ _ => Raise (LibraryError "HTTPError")
  | esummary _ id =>
      if decide (id = "38370347,38328712") then Ok "esummary:2"
      else if decide (id = "38370347,38303306,38328712") then Ok "esummary:3"
      else Raise (LibraryError "HTTPError")
  | read h =>
      if decide (h = "esearch:2") then Ok (PDict [("Count", PStr "2"); ("IdList", found)])
      else if decide (h = "esearch:0") then Ok (PDict [("Count", PStr "0"); ("IdList", PList [])])
      else if decide (h = "esummary:2") then Ok (PList found_docsums)
      else if decide (h = "esummary:3") then Ok (PList batch_docsums)
      else Raise (LibraryError "NotXMLError")
  end.

Definition pubmed : service nat := Service (λ X e served, (answer e, S served)).

End Sample.

(** ** Joining two tables *)

(** The notebook that joins the two statistics tables is not among the
    sources; this module is the Tabulator's join as the specification words
    it.  A record maps field names to values, a table is a sequence of
    records. *)
Module Tabulator.
Section join.
Context {V : Type} `{EqDecision V}.

(** Modelled from the spec: the rows of the right table matched by a key
    value, missing from the sources; "an equality match" on "a named key
    field". *)
Definition matching (K : string) (k : V) (B : list (gmap string V))
  : list (gmap string V) :=
  filter (λ b, b !! K = Some k) B.

(** Modelled from the spec: the join itself, missing from the sources; the
    inner join, with "one row per matching key with columns from both
    sides", "no deduplication" and "a row per match" for duplicate keys.  A
    field both rows have keeps the left row's value. *)
Definition join (K : string) (A B : list (gmap string V)) : list (gmap string V) :=
  a ← A;
  match a !! K with
  | Some k => (λ b, a ∪ b) <$> matching K k B
  | None => []
  end.

(** Modelled from the spec: "keys are unique on the right side". *)
Definition key_values (K : string) (B : list (gmap string V)) : list V :=
  omap (λ b, b !! K) B.

Definition unique_keys (K : string) (B : list (gmap string V)) : Prop :=
  NoDup (key_values K B).

End join.
End Tabulator.

(** Two monthly series keyed on [date], three months each, two in common. *)
Module Series.

Definition ine : list (gmap string Z) :=
  [ {[ "date" := 202301%Z; "ine" := 58%Z ]};
    {[ "date" := 202302%Z; "ine" := 60%Z ]};
    {[ "date" := 202304%Z; "ine" := 33%Z ]} ].

Definition eu : list (gmap string Z) :=
  [ {[ "date" := 202301%Z; "eu" := 86%Z ]};
    {[ "date" := 202302%Z; "eu" := 85%Z ]};
    {[ "date" := 202303%Z; "eu" := 99%Z ]} ].

End Series.

(** ** More vocabulary *)

(** The calls of the first part that go over the network: a [read] parses
    what was already received. *)
Definition over_network (r : request) : bool :=
  match projT2 r with
  | esearch _ _ _ | esummary _ _ => true
  | read _ => false
  end.

(** A variant of the sample service whose searches find nothing. *)
Module Barren.

Definition answer {X} (e : EntrezE X) : result X :=
  match e in EntrezE X return result X with
  | esearch db term _ => Sample.answer (esearch db term (PInt 0))
  | esummary db id => Sample.answer (esummary db id)
  | read h => Sample.answer (read h)
  end.

Definition pubmed : service nat := Service (λ X e served, (answer e, S served)).

End Barren.

(** * The rest of the notebook *)

(** [available_dbs], [pubmed_info], [article_abstract] and the code cells of
    section 4 call more of the libraries ([Entrez.einfo], [Entrez.efetch],
    the [read] method of a response, [pandas.DataFrame] and its [head]) and
    print.  They use truth values and integer subscripts too, whose
    exceptions the functions above never meet. *)

(** ** More of Python *)

(** [bool(v)], as [if v:] takes it. *)
Definition truthy (v : pyval) : bool :=
  match v with
  | PNone => false
  | PBool b => b
  | PInt n => negb (n =? 0)%Z
  | PStr s => negb (String.eqb s "")
  | PList items | PTuple items => negb (bool_decide (items = []))
  | PDict d => negb (bool_decide (d = []))
  end.

Inductive pyexn : Type :=
| Exn (e : exn)
| IndexError
| IntKeyError (key : Z).

Inductive outcome (A : Type) : Type :=
| Returns (a : A)
| Raises (e : pyexn).
Arguments Returns {A} a.
Arguments Raises {A} e.

Definition of_result {A} (r : result A) : outcome A :=
  match r with
  | Ok a => Returns a
  | Raise e => Raises (Exn e)
  end.

(** The item an integer index names in a sequence: a negative index counts
    from the end. *)
Definition item_at {A} (items : list A) (i : Z) : option A :=
  let j := if (i <? 0)%Z then (i + Z.of_nat (length items))%Z else i in
  if (j <? 0)%Z then None else items !! Z.to_nat j.

(** [obj[i]] with an integer [i].  A dict here has string keys only, so an
    integer is never one of them. *)
Definition getitem_int (obj : pyval) (i : Z) : outcome pyval :=
  match obj with
  | PList items | PTuple items =>
      match item_at items i with
      | Some item => Returns item
      | None => Raises IndexError
      end
  | PStr s =>
      match item_at (chars s) i with
      | Some c => Returns (PStr c)
      | None => Raises IndexError
      end
  | PDict _ => Raises (IntKeyError i)
  | PNone | PBool _ | PInt _ => Raises (Exn TypeError)
  end.

(** [s * n] on a string. *)
Fixpoint str_times (s : string) (n : nat) : string :=
  match n with
  | 0 => ""
  | S n' => s +:+ str_times s n'
  end.

Definition newline : string := String "010" "".

(** ** Cells *)

(** A [DataFrame] is known by how it displays. *)
Definition frame : Type := string.

Inductive NotebookE : Type → Type :=
| entrez {X} (e : EntrezE X) : NotebookE X
| einfo (db : option string) : NotebookE handle
| efetch (db : string) (id : pyval) (rettype retmode : string) : NotebookE handle
| handle_read (h : handle) : NotebookE string
| DataFrame (data : pyval) : NotebookE frame
| df_head (df : frame) : NotebookE frame.

Inductive cell (A : Type) : Type :=
| Stop (o : outcome A)
| Emit (text : string) (k : cell A)
| Do {X : Type} (e : NotebookE X) (k : X → cell A).
Arguments Stop {A} o.
Arguments Emit {A} text k.
Arguments Do {A X} e k.

Fixpoint cell_bind {A B} (f : A → cell B) (p : cell A) : cell B :=
  match p with
  | Stop (Returns a) => f a
  | Stop (Raises e) => Stop (Raises e)
  | Emit text k => Emit text (cell_bind f k)
  | Do e k => Do e (λ x, cell_bind f (k x))
  end.

#[global] Instance cell_ret : MRet cell := λ A a, Stop (Returns a).
#[global] Instance cell_mbind : MBind cell := @cell_bind.

Definition ask {X} (e : NotebookE X) : cell X := Do e (λ x, Stop (Returns x)).

(** [print] of its arguments: their renderings, separated by spaces, and a
    newline. *)
Definition print (args : list pyval) : cell unit :=
  Emit (join " " (pystr <$> args) +:+ newline) (Stop (Returns tt)).

(** A function of the first part, called from a cell. *)
Fixpoint of_prog {A} (p : prog A) : cell A :=
  match p with
  | Return r => Stop (of_result r)
  | Vis e k => Do (entrez e) (λ x, of_prog (k x))
  end.

(** The libraries as a whole: what answers the calls of a cell. *)
Record world (St : Type) : Type := World {
  respond : ∀ X, NotebookE X → St → result X * St
}.
Arguments World {St} respond.
Arguments respond {St} w {X} e s : rename.


(** What a run leaves behind, in order: the texts printed and the calls
    made. *)
Inductive event : Type :=
| Printed (text : string)
| Called {X : Type} (e : NotebookE X).

Fixpoint run_cell {St A} (w : world St) (p : cell A) (s : St)
  : outcome A * St * list event :=
  match p with
  | Stop o => (o, s, [])
  | Emit text k =>
      let '(o, s', t) := run_cell w k s in (o, s', Printed text :: t)
  | Do e k =>
      match respond w e s with
      | (Ok x, s') =>
          let '(o, s'', t) := run_cell w (k x) s' in (o, s'', Called e :: t)
      | (Raise ex, s') => (Raises (Exn ex), s', [Called e])
      end
  end.

(** The calls that go over the network: parsing a response and building or
    slicing a table do not. *)
Definition is_request (ev : event) : bool :=
  match ev with
  | Called (entrez e) => over_network (Request e)
  | Called (einfo _) | Called (efetch _ _ _ _) => true
  | _ => false
  end.

Definition requests (t : list event) : nat :=
  length (filter (λ ev, is_request ev = true) t).



(** ** The other functions *)

Definition available_dbs : cell pyval :=
  info ← ask (einfo None);
  record_info ← ask (entrez (read info));
  databases ← Stop (of_result (getitem record_info "DbList"));
  mret databases.

Definition pubmed_info : cell (pydict * frame) :=
  info ← ask (einfo (Some "pubmed"));
  record_info ← ask (entrez (read info));
  db_info ← Stop (of_result (getitem record_info "DbInfo"));
  db_name ← Stop (of_result (getitem db_info "DbName"));
  menu_name ← Stop (of_result (getitem db_info "MenuName"));
  description ← Stop (of_result (getitem db_info "Description"));
  db_build ← Stop (of_result (getitem db_info "DbBuild"));
  count ← Stop (of_result (getitem db_info "Count"));
  last_update ← Stop (of_result (getitem db_info "LastUpdate"));
  let df_main :=
    [("Dbname", db_name);
     ("Menuname", menu_name);
     ("Description", description);
     ("Dbbuild", db_build);
     ("Count", count);
     ("Lastupdate", last_update)] in
  field_list ← Stop (of_result (getitem db_info "FieldList"));
  df_field_list ← ask (DataFrame field_list);
  mret (df_main, df_field_list).

Definition article_abstract (article_id : pyval) : cell pyval :=
  fetch ← ask (efetch "pubmed" article_id "abstract" "text");
  abstract ← ask (handle_read fetch);
  print [PStr abstract];;
  mret PNone.

(** ** The code cells of section 4 *)

(** Each cell takes the globals it reads and returns what it binds or
    displays. *)
Definition cell_19 : cell frame :=
  print [PStr "Available databases in Entrez:"];;
  databases ← available_dbs;
  print [databases];;
  print [PStr (str_times "-" 20)];;
  '(df_main, df_field_list) ← pubmed_info;
  print [PStr ("Main information in PubMed:" +:+ newline); PDict df_main];;
  print [PStr (newline +:+ "database info:" +:+ newline)];;
  ask (df_head df_field_list).

Definition cell_20 : cell pyval :=
  print [PStr (newline +:+ "Search for articles on '" +:+ pystr key_words
               +:+ "' published from " +:+ pystr date +:+ ":")];;
  id_list ← of_prog (search_articles key_words date None);
  print [PStr "IDs of the articles found: "; id_list];;
  mret id_list.

Definition cell_21 (id_list : pyval) : cell frame :=
  articles_info ← of_prog (article_details id_list);
  print [PStr (newline +:+ "Articles detailed information:")];;
  df ← ask (DataFrame (PList (PDict <$> articles_info)));
  mret df.

Definition cell_22 (id_list : pyval) : cell unit :=
  if truthy id_list then
    article_id ← Stop (getitem_int id_list 0);
    print [PStr (newline +:+ "First article found summary:")];;
    article_abstract article_id;;
    mret tt
  else
    print [PStr (newline +:+ "No articles found.")].

(** The four cells run in order, each after the one before it returned. *)
Definition run_all : cell unit :=
  cell_19;;
  id_list ← cell_20;
  cell_21 id_list;;
  cell_22 id_list.

(** ** Sample libraries *)

(** The sample service with the rest of the libraries around it: the two
    [einfo] answers and one abstract, cut down from the notebook's recorded
    output. *)
Module Lab.

Definition databases : pyval := PList [PStr "pubmed"; PStr "protein"; PStr "nuccore"].

Definition db_info : pyval :=
  PDict [("DbName", PStr "pubmed");
         ("MenuName", PStr "PubMed");
         ("Description", PStr "PubMed bibliographic record");
         ("DbBuild", PStr "Build-2024.09.06.23.59");
         ("Count", PStr "37708996");
         ("LastUpdate", PStr "2024/09/06 23:59");
         ("FieldList", PList [PDict [("Name", PStr "ALL"); ("FullName", PStr "All Fields")];
                              PDict [("Name", PStr "UID"); ("FullName", PStr "UID")]])].

Definition abstract : string :=
  "1. Front Oncol. 2024 Feb 2;13:1215426. doi: 10.3389/fonc.2023.1215426.".

Definition answer {X} (e : NotebookE X) : result X :=
  match e in NotebookE X return result X with
  | entrez e' =>
      match e' in EntrezE X return result X with
      | read h =>
          if decide (h = "einfo") then Ok (PDict [("DbList", databases)])
          else if decide (h = "einfo:pubmed") then Ok (PDict [("DbInfo", db_info)])
          else Sample.answer (read h)
      | esearch db term retmax => Sample.answer (esearch db term retmax)
      | esummary db id => Sample.answer (esummary db id)
      end
  | einfo None => Ok "einfo"
  | einfo (Some db) =>
      if decide (db = "pubmed") then Ok "einfo:pubmed" else Raise (LibraryError "HTTPError")
  | efetch _ (PStr uid) _ _ => Ok ("efetch:" +:+ uid)
  | efetch _ _ _ _ => Raise (LibraryError "HTTPError")
  | handle_read h =>
      if decide (h = "efetch:38370347") then Ok abstract
      else Raise (LibraryError "ValueError")
  | DataFrame data => Ok ("DataFrame: " +:+ pystr data)
  | df_head df => Ok df
  end.

Definition libraries : world nat := World (λ X e served, (answer e, S served)).

(** The same libraries, but for an [einfo] answer whose DbInfo stops after
    its first three fields. *)
Definition short_db_info : pyval :=
  PDict [("DbName", PStr "pubmed");
         ("MenuName", PStr "PubMed");
         ("Description", PStr "PubMed bibliographic record")].

Definition short_answer {X} (e : NotebookE X) : result X :=
  match e in NotebookE X return result X with
  | entrez e' =>
      match e' in EntrezE X return result X with
      | read h =>
          if decide (h = "einfo:pubmed") then Ok (PDict [("DbInfo", short_db_info)])
          else answer (entrez (read h))
      | esearch db term retmax => answer (entrez (esearch db term retmax))
      | esummary db id => answer (entrez (esummary db id))
      end
  | einfo db => answer (einfo db)
  | efetch db id rettype retmode => answer (efetch db id rettype retmode)
  | handle_read h => answer (handle_read h)
  | DataFrame data => answer (DataFrame data)
  | df_head df => answer (df_head df)
  end.

Definition short_libraries : world nat :=
  World (λ X e served, (short_answer e, S served)).

End Lab.

(** * Facts *)

(** ** Rendering *)

Example pystr_list : pystr key_words = "['cancer', 'brain']".
Proof. reflexivity. Qed.

Example pystr_quotes : pyrepr (PStr "it's") = String dquote ("it's" +:+ String dquote "").
Proof. reflexivity. Qed.

Example pystr_nested :
  pystr (PDict [("a", PInt (-3)); ("b", PTuple [PNone])]) = "{'a': -3, 'b': (None,)}"
  ∧ pystr (PInt 2023) = "2023" ∧ pystr (PTuple [PBool true; PInt 0]) = "(True, 0)".
Proof. repeat split. Qed.

Example repr_escapes :
  str_repr (String "009" (String "150" "a\b")) = "'\t\x96a\\b'"
  ∧ str_repr (String "127" (String "160" "")) = "'\x7f\xa0'".
Proof. split; reflexivity. Qed.

Example sample_pipeline :
  run Sample.pubmed (pipeline key_words date) 0 = (Ok Sample.found_rows, 4).
Proof. reflexivity. Qed.

Example sample_batch :
  run Sample.pubmed (article_details Sample.batch) 0 = (Raise (KeyError "PubDate"), 2).
Proof. reflexivity. Qed.

Example sample_calls :
  calls Sample.pubmed (search_articles key_words date None) 0
  = [Request (esearch "pubmed" "['cancer', 'brain'][Title/Abstract] AND 2023[PDAT]" (PInt 10));
     Request (read "esearch:2")].
Proof. reflexivity. Qed.

(** ** Running programs *)

Lemma run_bind {St A B} (svc : service St) (p : prog A) (f : A → prog B) s :
  run svc (p ≫= f) s =
  match run svc p s with
  | (Ok a, s') => run svc (f a) s'
  | (Raise e, s') => (Raise e, s')
  end.
Proof.
  revert s; induction p as [[a|e]|X e k IH]; intros s; simpl; [done|done|].
  destruct (serve svc e s) as [[x|ex] s']; [apply IH|done].
Qed.

(** The log of a run only grows, by the calls of the program. *)
Lemma run_logged {St A} (svc : service St) (p : prog A) s log :
  run (logged svc) p (s, log)
  = ((run svc p s).1, ((run svc p s).2, log ++ calls svc p s)).
Proof.
  unfold calls. revert s log. induction p as [r|X e k IH]; intros s log; simpl.
  - by rewrite app_nil_r.
  - destruct (serve svc e s) as [[x|ex] s1]; simpl.
    + rewrite (IH x s1 (log ++ [Request e])), (IH x s1 [Request e]). simpl.
      by rewrite <- app_assoc.
    + done.
Qed.

Lemma calls_Vis {St A X} (svc : service St) (e : EntrezE X) (k : X → prog A) s :
  calls svc (Vis e k) s
  = Request e :: match serve svc e s with
                 | (Ok x, s1) => calls svc (k x) s1
                 | (Raise _, _) => []
                 end.
Proof.
  unfold calls at 1. simpl. destruct (serve svc e s) as [[x|ex] s1]; simpl; [|done].
  by rewrite run_logged.
Qed.

(** ** [search_articles] *)

Lemma calls_search_articles {St} (svc : service St) s key_words date max_results :
  ∃ rest,
    calls svc (search_articles key_words date max_results) s
    = Request (esearch "pubmed"
                 (pystr key_words +:+ "[Title/Abstract] AND " +:+ pystr date +:+ "[PDAT]")
                 (default (PInt 10) max_results)) :: rest
    ∧ (rest = [] ∨ ∃ search, rest = [Request (read search)]).
Proof.
  unfold search_articles. simpl. rewrite calls_Vis. eexists. split; [done|].
  destruct (serve svc _ s) as [[search|ex] s1]; [|by left].
  right. exists search. rewrite calls_Vis.
  by destruct (serve svc _ s1) as [[record_search|ex] s2].
Qed.

Lemma search_articles_inv {St} (svc : service St) s key_words date max_results id_list s' :
  run svc (search_articles key_words date max_results) s = (Ok id_list, s') →
  ∃ term search s1 record_search,
    serve svc (esearch "pubmed" term (default (PInt 10) max_results)) s = (Ok search, s1)
    ∧ serve svc (read search) s1 = (Ok record_search, s')
    ∧ getitem record_search "IdList" = Ok id_list.
Proof.
  unfold search_articles. simpl.
  destruct (serve svc _ s) as [[search|ex] s1] eqn:Hsearch; [|done].
  destruct (serve svc _ s1) as [[record_search|ex] s2] eqn:Hread; [|done].
  simpl. intros [= Hids <-]. by eexists _, search, s1, record_search.
Qed.

Lemma pyrepr_strs (terms : list string) : pyrepr <$> (PStr <$> terms) = str_repr <$> terms.
Proof. by rewrite <- list_fmap_compose. Qed.

(** ** One record *)

Lemma missing_key_None d :
  missing_key d = None ↔
  is_Some (dict_lookup "Id" d) ∧ is_Some (dict_lookup "Title" d) ∧
  is_Some (dict_lookup "AuthorList" d) ∧ is_Some (dict_lookup "PubDate" d).
Proof.
  unfold missing_key, required_keys. rewrite !filter_cons, filter_nil.
  destruct (dict_lookup "Id" d), (dict_lookup "Title" d),
    (dict_lookup "AuthorList" d), (dict_lookup "PubDate" d);
    repeat case_decide; simpl; try done;
    split; try done; intros (? & ? & ? & ?);
    by repeat match goal with H : is_Some None |- _ => destruct H end.
Qed.

Lemma missing_key_required d key : missing_key d = Some key → key ∈ required_keys.
Proof.
  unfold missing_key. intros Hhead%head_Some_elem_of.
  by apply list_elem_of_filter in Hhead as [_ ?].
Qed.

(** A row is built exactly from a dict that has the four required keys. *)
Lemma article_info_Ok article row :
  article_info article = Ok row ↔
  ∃ d id title author_list pub_date,
    article = PDict d ∧
    dict_lookup "Id" d = Some id ∧
    dict_lookup "Title" d = Some title ∧
    dict_lookup "AuthorList" d = Some author_list ∧
    dict_lookup "PubDate" d = Some pub_date ∧
    row = [("ID", id); ("Title", title); ("AuthorList", author_list);
           ("PubDate", pub_date);
           ("DOI", default (PStr "No disponible") (dict_lookup "DOI" d));
           ("Link PubMed", PStr ("https://www.ncbi.nlm.nih.gov/pubmed/" +:+ pystr id))].
Proof.
  split.
  - destruct article as [| | | | | |d]; try done.
    unfold article_info. simpl.
    destruct (dict_lookup "Id" d) as [id|] eqn:Hid; simpl; [|done].
    destruct (dict_lookup "Title" d) as [title|] eqn:Htitle; simpl; [|done].
    destruct (dict_lookup "AuthorList" d) as [author_list|] eqn:Hal; simpl; [|done].
    destruct (dict_lookup "PubDate" d) as [pub_date|] eqn:Hpd; simpl; [|done].
    intros Hrow. exists d, id, title, author_list, pub_date.
    repeat (split; [done|]).
    destruct (dict_lookup "DOI" d); simpl in *; congruence.
  - intros (d & id & title & author_list & pub_date & -> & Hid & Htitle & Hal & Hpd & ->).
    unfold article_info. simpl. rewrite Hid, Htitle, Hal, Hpd. simpl.
    by destruct (dict_lookup "DOI" d).
Qed.

Lemma article_info_malformed article key :
  malformed article key → article_info article = Raise (KeyError key).
Proof.
  intros (d & -> & Hkey). revert Hkey.
  unfold missing_key, required_keys, article_info. rewrite !filter_cons, filter_nil. simpl.
  destruct (dict_lookup "Id" d), (dict_lookup "Title" d),
    (dict_lookup "AuthorList" d), (dict_lookup "PubDate" d);
    repeat case_decide; simpl; congruence.
Qed.

Lemma article_info_well_formed article :
  well_formed article ↔ ∃ row, article_info article = Ok row.
Proof.
  split.
  - intros (d & -> & Hkey).
    apply missing_key_None in Hkey as ([id Hid] & [t Ht] & [a Ha] & [p Hp]).
    eexists. apply article_info_Ok. by exists d, id, t, a, p.
  - intros [row (d & id & t & a & p & -> & Hid & Ht & Ha & Hp & _)%article_info_Ok].
    exists d. split; [done|]. apply missing_key_None. rewrite Hid, Ht, Ha, Hp. eauto.
Qed.

(** ** The loop *)

Lemma for_article_acc articles acc :
  for_article articles acc = (rows ← for_article articles []; Ok (acc ++ rows)).
Proof.
  revert acc. induction articles as [|article rest IH]; intros acc; simpl.
  - by rewrite app_nil_r.
  - destruct (article_info article) as [info|e]; simpl; [|done].
    rewrite (IH (acc ++ [info])), (IH [info]).
    destruct (for_article rest []); simpl; [|done].
    by rewrite <- app_assoc.
Qed.

Lemma for_article_Ok articles rows :
  for_article articles [] = Ok rows ↔
  Forall2 (λ article row, article_info article = Ok row) articles rows.
Proof.
  revert rows. induction articles as [|article rest IH]; intros rows; simpl.
  - split; [intros [= <-]; constructor | by intros ->%Forall2_nil_inv_l].
  - destruct (article_info article) as [info|e] eqn:Hinfo; simpl.
    + rewrite for_article_acc.
      destruct (for_article rest []) as [rows'|e] eqn:Hrest; simpl.
      * split.
        -- intros [= <-]. constructor; [done|]. by apply IH.
        -- intros (info' & rows'' & Hi & Hr & ->)%Forall2_cons_inv_l.
           apply IH in Hr. congruence.
      * split; [done|].
        intros (info' & rows'' & Hi & Hr & ->)%Forall2_cons_inv_l.
        apply IH in Hr. congruence.
    + split; [done|]. intros (info' & rows'' & Hi & _)%Forall2_cons_inv_l. congruence.
Qed.

(** The loop stops at the first record it cannot turn into a row; what it
    had accumulated is lost with the exception. *)
Lemma for_article_raise pre bad post acc e :
  Forall well_formed pre → article_info bad = Raise e →
  for_article (pre ++ bad :: post) acc = Raise e.
Proof.
  intros Hpre Hbad. revert acc.
  induction Hpre as [|article pre [row Hrow]%article_info_well_formed _ IH]; intros acc; simpl.
  - by rewrite Hbad.
  - rewrite Hrow. simpl. apply IH.
Qed.

Lemma for_article_total articles :
  Forall well_formed articles → ∃ rows, for_article articles [] = Ok rows.
Proof.
  induction 1 as [|article rest [row Hrow]%article_info_well_formed _ [rows IH]]; simpl.
  - by eexists.
  - rewrite Hrow. simpl. rewrite for_article_acc, IH. by eexists.
Qed.

(** ** [article_details] *)

Lemma article_details_run {St} (svc : service St) s id_list articles s' :
  summary_response svc s id_list articles s' →
  run svc (article_details id_list) s = (for_article articles [], s').
Proof.
  intros (ids & summary & s1 & record_summary & Hjoin & Hsum & Hread & Hiter).
  unfold article_details. rewrite Hjoin. simpl. rewrite Hsum. simpl. rewrite Hread. simpl.
  rewrite Hiter. done.
Qed.

Lemma article_details_inv {St} (svc : service St) s id_list rows s' :
  run svc (article_details id_list) s = (Ok rows, s') →
  ∃ articles, summary_response svc s id_list articles s' ∧ for_article articles [] = Ok rows.
Proof.
  unfold article_details, summary_response.
  destruct (str_join "," id_list) as [ids|e] eqn:Hjoin; simpl; [|done].
  destruct (serve svc (esummary "pubmed" ids) s) as [[summary|e] s1] eqn:Hsum; simpl; [|done].
  destruct (serve svc (read summary) s1) as [[record_summary|e] s2] eqn:Hread; simpl; [|done].
  destruct (iter record_summary) as [articles|e] eqn:Hiter; simpl; [|done].
  intros [= Hrows <-]. exists articles. split; [|done].
  by exists ids, summary, s1, record_summary.
Qed.

Lemma article_details_rows {St} (svc : service St) s id_list articles s' rows :
  summary_response svc s id_list articles s' →
  (run svc (article_details id_list) s).1 = Ok rows ↔
  Forall2 (λ article row, article_info article = Ok row) articles rows.
Proof.
  intros Hresp. rewrite (article_details_run _ _ _ _ _ Hresp). simpl.
  apply for_article_Ok.
Qed.

Lemma pipeline_inv {St} (svc : service St) s key_words date rows s' :
  run svc (pipeline key_words date) s = (Ok rows, s') →
  ∃ id_list s1,
    run svc (search_articles key_words date None) s = (Ok id_list, s1)
    ∧ run svc (article_details id_list) s1 = (Ok rows, s').
Proof.
  unfold pipeline. rewrite run_bind.
  destruct (run svc (search_articles key_words date None) s) as [[id_list|e] s1]; [|done].
  intros Hrun. by exists id_list, s1.
Qed.

(** ** Counting the UIDs of a request *)

Lemma commas_app a b : commas (a +:+ b) = commas a + commas b.
Proof. induction a as [|c a IH]; simpl; [done|]. rewrite IH. lia. Qed.

Lemma digits_commas s : digits s = true → commas s = 0.
Proof.
  induction s as [|c s IH]; simpl; [done|].
  intros [Hc Hs]%andb_prop. rewrite (IH Hs).
  case_decide as Hcomma; [|done]. by rewrite Hcomma in Hc.
Qed.

Lemma commas_join uids :
  Forall (λ uid, commas uid = 0) uids → commas (join "," uids) = pred (length uids).
Proof.
  induction 1 as [|uid uids Huid Huids IH]; simpl; [done|].
  destruct uids as [|uid' uids]; [done|].
  rewrite !commas_app, Huid, IH. simpl. done.
Qed.

Lemma all_str_uids items :
  Forall is_uid items →
  ∃ uids, all_str items = Ok uids ∧ length uids = length items
          ∧ Forall (λ uid, commas uid = 0) uids.
Proof.
  induction 1 as [|item items (uid & -> & _ & Hdigits) _ (uids & Hall & Hlen & Hcommas)]; simpl.
  - by exists [].
  - rewrite Hall. simpl. exists (uid :: uids). repeat split; [simpl; lia|].
    constructor; [by apply digits_commas|done].
Qed.

(** ** The sample service *)

Lemma sample_honours_retmax : honours_retmax Sample.pubmed.
Proof.
  intros s db term n search s1 record_search s2 id_list Hs Hr Hids. simpl in *.
  repeat case_decide; simplify_eq/=; eexists; (split; [done|]); simpl; lia.
Qed.

Lemma sample_lists_uids : lists_uids Sample.pubmed.
Proof.
  intros s db term retmax search s1 record_search s2 items Hs Hr Hids. simpl in *.
  destruct retmax; simplify_eq/=. repeat case_decide; simplify_eq/=;
    repeat constructor; by eexists.
Qed.

Lemma sample_one_docsum_per_uid : one_docsum_per_uid Sample.pubmed.
Proof.
  intros s db id summary s1 record_summary s2 articles Hs Hr Hiter. simpl in *.
  repeat case_decide; simplify_eq/=; unfold id_count; simpl; lia.
Qed.

Lemma sample_found_response :
  summary_response Sample.pubmed 2 Sample.found Sample.found_docsums 4.
Proof. by exists "38370347,38328712", "esummary:2", 3, (PList Sample.found_docsums). Qed.

Lemma sample_batch_response :
  summary_response Sample.pubmed 0 Sample.batch Sample.batch_docsums 2.
Proof.
  by exists "38370347,38303306,38328712", "esummary:3", 1, (PList Sample.batch_docsums).
Qed.

Lemma sample_well_formed :
  well_formed Sample.docsum_38370347 ∧ well_formed Sample.docsum_38328712
  ∧ malformed Sample.docsum_38303306 "PubDate".
Proof. repeat split; by eexists. Qed.

(** * The claims *)

(** ** The end-to-end scenario *)

(** C1, as the code has it.  For the query of cell 20 (terms
    ["cancer", "brain"], date "2023") searched with the default page size
    against a service that honours [retmax], lists integer UIDs and returns
    at most one summary per UID asked for: when the pipeline returns, its
    table has at most 10 rows, every row has the fields ID, Title,
    AuthorList, PubDate, DOI and Link PubMed, and the DOI of a row is
    "No disponible" whenever its source record has no DOI key. *)
Theorem pipeline_table {St} (svc : service St) s rows s' :
  honours_retmax svc → lists_uids svc → one_docsum_per_uid svc →
  run svc (pipeline key_words date) s = (Ok rows, s') →
  length rows ≤ 10
  ∧ Forall (λ row, Forall (λ field, is_Some (dict_lookup field row)) row_keys) rows
  ∧ ∃ id_list s1 articles,
      run svc (search_articles key_words date None) s = (Ok id_list, s1)
      ∧ summary_response svc s1 id_list articles s'
      ∧ Forall2 (λ article row,
                   getitem article "DOI" = Raise (KeyError "DOI") →
                   dict_lookup "DOI" row = Some (PStr "No disponible"))
                articles rows.
Proof.
  intros Hmax Huids Hone (id_list & s1 & Hsearch & Hdetails)%pipeline_inv.
  destruct (article_details_inv _ _ _ _ _ Hdetails) as (articles & Hresp & Hrows).
  apply for_article_Ok in Hrows.
  assert (Hbuilt : Forall2 (λ article row, ∃ d id title author_list pub_date,
            article = PDict d ∧
            row = [("ID", id); ("Title", title); ("AuthorList", author_list);
                   ("PubDate", pub_date);
                   ("DOI", default (PStr "No disponible") (dict_lookup "DOI" d));
                   ("Link PubMed",
                    PStr ("https://www.ncbi.nlm.nih.gov/pubmed/" +:+ pystr id))])
            articles rows).
  { eapply Forall2_impl; [exact Hrows|]. simpl.
    intros article row (d & id & t & a & p & -> & _ & _ & _ & _ & ->)%article_info_Ok.
    by exists d, id, t, a, p. }
  split; [|split].
  - pose proof Hsearch
      as (term & search & s0 & record_search & Hs & Hr & Hids)%search_articles_inv.
    destruct (Hmax _ _ _ _ _ _ _ _ _ Hs Hr Hids) as (items & -> & Hlen).
    destruct (all_str_uids items) as (uids & Hall & Hlen' & Hcommas).
    { eapply Huids; [exact Hs|exact Hr|exact Hids]. }
    destruct Hresp as (ids & summary & s2 & record_summary & Hjoin & Hsum & Hread & Hiter).
    unfold str_join in Hjoin. simpl in Hjoin. rewrite Hall in Hjoin. simpl in Hjoin.
    injection Hjoin as <-.
    pose proof (Hone _ _ _ _ _ _ _ _ Hsum Hread Hiter) as Hcount.
    unfold id_count in Hcount. rewrite (commas_join _ Hcommas) in Hcount.
    rewrite <- (Forall2_length _ _ _ Hrows). lia.
  - apply Forall_lookup. intros i row Hi.
    destruct (Forall2_lookup_r _ _ _ _ _ Hbuilt Hi)
      as (article & _ & d & ? & ? & ? & ? & _ & ->).
    unfold row_keys. repeat constructor; by eexists.
  - exists id_list, s1, articles. repeat split; [done..|].
    eapply Forall2_impl; [exact Hbuilt|]. simpl.
    intros article row (d & ? & ? & ? & ? & -> & ->). simpl.
    by destruct (dict_lookup "DOI" d).
Qed.

Lemma pipeline_table_witness :
  length Sample.found_rows ≤ 10
  ∧ Forall (λ row, Forall (λ field, is_Some (dict_lookup field row)) row_keys)
      Sample.found_rows
  ∧ ∃ id_list s1 articles,
      run Sample.pubmed (search_articles key_words date None) 0 = (Ok id_list, s1)
      ∧ summary_response Sample.pubmed s1 id_list articles 4
      ∧ Forall2 (λ article row,
                   getitem article "DOI" = Raise (KeyError "DOI") →
                   dict_lookup "DOI" row = Some (PStr "No disponible"))
                articles Sample.found_rows.
Proof.
  exact (pipeline_table Sample.pubmed 0 Sample.found_rows 4 sample_honours_retmax
           sample_lists_uids sample_one_docsum_per_uid eq_refl).
Defined.

(** C1 as the specification words it fails on the second record of the
    sample run: the record has no DOI key, and its row holds
    "No disponible", not "not available"; the row has no field named
    "Link" either (the field is "Link PubMed"). *)
Lemma pipeline_sentinel_counterexample :
  ∃ rows row,
    run Sample.pubmed (pipeline key_words date) 0 = (Ok rows, 4)
    ∧ summary_response Sample.pubmed 2 Sample.found Sample.found_docsums 4
    ∧ Sample.found_docsums !! 1 = Some Sample.docsum_38328712
    ∧ getitem Sample.docsum_38328712 "DOI" = Raise (KeyError "DOI")
    ∧ rows !! 1 = Some row
    ∧ dict_lookup "DOI" row = Some (PStr "No disponible")
    ∧ dict_lookup "DOI" row ≠ Some (PStr "not available")
    ∧ dict_lookup "Link" row = None.
Proof.
  do 2 eexists. split; [reflexivity|]. split; [apply sample_found_response|].
  repeat split. done.
Qed.

(** ** Missing fields *)

(** C2, as the code has it.  Take a record (a dict) of the summary
    response, all records before it being well formed.  If it has the four
    required keys but no DOI key, and the records after it are well formed
    too, the run returns a table whose row for this record holds
    "No disponible" as its DOI.  If a required key (Id, Title, AuthorList or
    PubDate) is absent, the run ends with Python's [KeyError] for the first
    such key. *)
Theorem missing_field_policy {St} (svc : service St) s id_list articles s' i d :
  summary_response svc s id_list articles s' →
  articles !! i = Some (PDict d) →
  Forall well_formed (take i articles) →
  (missing_key d = None → dict_lookup "DOI" d = None →
   Forall well_formed (drop (S i) articles) →
   ∃ rows row,
     run svc (article_details id_list) s = (Ok rows, s')
     ∧ rows !! i = Some row
     ∧ dict_lookup "DOI" row = Some (PStr "No disponible"))
  ∧ (∀ key, missing_key d = Some key →
       key ∈ required_keys
       ∧ run svc (article_details id_list) s = (Raise (KeyError key), s')).
Proof.
  intros Hresp Hi Hpre. rewrite (article_details_run _ _ _ _ _ Hresp).
  pose proof (take_drop_middle _ _ _ Hi) as Hsplit. split.
  - intros Hkeys Hdoi Hpost.
    destruct (for_article_total articles) as [rows Hrows].
    { rewrite <- Hsplit. apply Forall_app. split; [done|]. constructor; [|done]. by exists d. }
    rewrite Hrows. apply for_article_Ok in Hrows.
    destruct (Forall2_lookup_l _ _ _ _ _ Hrows Hi) as (row & Hrow & Hinfo).
    exists rows, row. repeat split; [done|].
    apply article_info_Ok in Hinfo as (d' & ? & ? & ? & ? & [= <-] & _ & _ & _ & _ & ->).
    simpl. by rewrite Hdoi.
  - intros key Hkey. split; [by eapply missing_key_required|].
    rewrite <- Hsplit, (for_article_raise _ _ _ _ (KeyError key)); [done..|].
    apply article_info_malformed. by exists d.
Qed.

Lemma missing_field_policy_witness :
  (∃ rows row,
     run Sample.pubmed (article_details Sample.found) 2 = (Ok rows, 4)
     ∧ rows !! 1 = Some row
     ∧ dict_lookup "DOI" row = Some (PStr "No disponible"))
  ∧ ("PubDate" ∈ required_keys
     ∧ run Sample.pubmed (article_details Sample.batch) 0
       = (Raise (KeyError "PubDate"), 2)).
Proof.
  destruct sample_well_formed as (Hfirst & _ & _). split.
  - refine (proj1 (missing_field_policy Sample.pubmed 2 Sample.found Sample.found_docsums
                     4 1 _ sample_found_response eq_refl _) eq_refl eq_refl _).
    + constructor; [exact Hfirst | constructor].
    + constructor.
  - refine (proj2 (missing_field_policy Sample.pubmed 0 Sample.batch Sample.batch_docsums
                     2 1 _ sample_batch_response eq_refl _) "PubDate" eq_refl).
    constructor; [exact Hfirst | constructor].
Defined.

(** C2 as the specification words it fails on the sample batch: its second
    record has no PubDate, and the exception the run ends with is a
    [KeyError], not a ParseError. *)
Lemma missing_field_counterexample :
  summary_response Sample.pubmed 0 Sample.batch Sample.batch_docsums 2
  ∧ Sample.batch_docsums !! 1 = Some Sample.docsum_38303306
  ∧ getitem Sample.docsum_38303306 "PubDate" = Raise (KeyError "PubDate")
  ∧ ∃ e, run Sample.pubmed (article_details Sample.batch) 0 = (Raise e, 2)
         ∧ exn_class e = "KeyError"
         ∧ exn_class e ≠ "ParseError".
Proof.
  split; [apply sample_batch_response|]. repeat split.
  exists (KeyError "PubDate"). by repeat split.
Qed.

(** ** The table *)

(** C3.  When the service answers the summary request with N records, the
    table [article_details] returns has exactly N rows, and the keys of
    every row are ID, Title, AuthorList, PubDate, DOI, Link PubMed; a table
    is returned whenever every record is well formed. *)
Theorem table_shape {St} (svc : service St) s id_list articles s' :
  summary_response svc s id_list articles s' →
  (Forall well_formed articles →
   ∃ rows, run svc (article_details id_list) s = (Ok rows, s'))
  ∧ (∀ rows, (run svc (article_details id_list) s).1 = Ok rows →
       length rows = length articles
       ∧ Forall (λ row, dict_keys row = row_keys) rows).
Proof.
  intros Hresp. split.
  - intros [rows Hrows]%for_article_total. exists rows.
    by rewrite (article_details_run _ _ _ _ _ Hresp), Hrows.
  - intros rows Hrows%(article_details_rows _ _ _ _ _ _ Hresp). split.
    + symmetry. by eapply Forall2_length.
    + apply Forall_lookup. intros i row Hi.
      destruct (Forall2_lookup_r _ _ _ _ _ Hrows Hi) as (article & _ & Hrow).
      apply article_info_Ok in Hrow as (? & ? & ? & ? & ? & _ & _ & _ & _ & _ & ->).
      reflexivity.
Qed.

Lemma table_shape_witness :
  (∃ rows, run Sample.pubmed (article_details Sample.found) 2 = (Ok rows, 4))
  ∧ (∀ rows, (run Sample.pubmed (article_details Sample.found) 2).1 = Ok rows →
       length rows = length Sample.found_docsums
       ∧ Forall (λ row, dict_keys row = row_keys) rows).
Proof.
  destruct (table_shape Sample.pubmed 2 Sample.found Sample.found_docsums 4
              sample_found_response) as [Htotal Hshape].
  split; [|exact Hshape].
  apply Htotal. repeat constructor; apply sample_well_formed.
Defined.

(** C4, as the code has it.  When the summary response holds one malformed
    record (a required key is missing) among well-formed ones,
    [article_details] ends with the [KeyError] of that record and returns
    no table: no row comes out, not even for the well-formed records. *)
Theorem malformed_record_aborts_batch {St} (svc : service St)
    s id_list pre bad post s' key :
  summary_response svc s id_list (pre ++ bad :: post) s' →
  Forall well_formed pre → Forall well_formed post → malformed bad key →
  run svc (article_details id_list) s = (Raise (KeyError key), s')
  ∧ ∀ rows, (run svc (article_details id_list) s).1 ≠ Ok rows.
Proof.
  intros Hresp Hpre _ Hbad%article_info_malformed.
  rewrite (article_details_run _ _ _ _ _ Hresp), (for_article_raise _ _ _ _ _ Hpre Hbad).
  done.
Qed.

Lemma malformed_record_aborts_batch_witness :
  run Sample.pubmed (article_details Sample.batch) 0 = (Raise (KeyError "PubDate"), 2)
  ∧ ∀ rows, (run Sample.pubmed (article_details Sample.batch) 0).1 ≠ Ok rows.
Proof.
  apply (malformed_record_aborts_batch Sample.pubmed 0 Sample.batch
           [Sample.docsum_38370347] Sample.docsum_38303306 [Sample.docsum_38328712]
           2 "PubDate").
  - apply sample_batch_response.
  - constructor; [apply sample_well_formed | constructor].
  - constructor; [apply sample_well_formed | constructor].
  - apply sample_well_formed.
Defined.

(** C4 as the specification words it fails on the sample batch: of its three
    records only the second is malformed, and the call returns an exception
    where rows for the first and the third were promised. *)
Lemma batch_counterexample :
  summary_response Sample.pubmed 0 Sample.batch Sample.batch_docsums 2
  ∧ Sample.batch_docsums
    = [Sample.docsum_38370347; Sample.docsum_38303306; Sample.docsum_38328712]
  ∧ well_formed Sample.docsum_38370347
  ∧ malformed Sample.docsum_38303306 "PubDate"
  ∧ well_formed Sample.docsum_38328712
  ∧ run Sample.pubmed (article_details Sample.batch) 0 = (Raise (KeyError "PubDate"), 2).
Proof.
  destruct sample_well_formed as (? & ? & ?). by split; [apply sample_batch_response|].
Qed.

(** C5.  Reading ID, Title, AuthorList and PubDate back from the row built
    for a source record gives the values the record holds under Id, Title,
    AuthorList and PubDate. *)
Theorem identity_fields_round_trip {St} (svc : service St)
    s id_list articles s' rows i article :
  summary_response svc s id_list articles s' →
  (run svc (article_details id_list) s).1 = Ok rows →
  articles !! i = Some article →
  ∃ row id title author_list pub_date,
    rows !! i = Some row
    ∧ getitem article "Id" = Ok id ∧ getitem (PDict row) "ID" = Ok id
    ∧ getitem article "Title" = Ok title ∧ getitem (PDict row) "Title" = Ok title
    ∧ getitem article "AuthorList" = Ok author_list
    ∧ getitem (PDict row) "AuthorList" = Ok author_list
    ∧ getitem article "PubDate" = Ok pub_date
    ∧ getitem (PDict row) "PubDate" = Ok pub_date.
Proof.
  intros Hresp Hrows%(article_details_rows _ _ _ _ _ _ Hresp) Hi.
  destruct (Forall2_lookup_l _ _ _ _ _ Hrows Hi) as (row & Hrow & Hinfo).
  apply article_info_Ok in Hinfo
    as (d & id & title & al & pd & -> & Hid & Ht & Hal & Hpd & ->).
  eexists _, id, title, al, pd. simpl. rewrite Hid, Ht, Hal, Hpd. by repeat split.
Qed.

Lemma identity_fields_round_trip_witness :
  ∃ row id title author_list pub_date,
    Sample.found_rows !! 1 = Some row
    ∧ getitem Sample.docsum_38328712 "Id" = Ok id ∧ getitem (PDict row) "ID" = Ok id
    ∧ getitem Sample.docsum_38328712 "Title" = Ok title
    ∧ getitem (PDict row) "Title" = Ok title
    ∧ getitem Sample.docsum_38328712 "AuthorList" = Ok author_list
    ∧ getitem (PDict row) "AuthorList" = Ok author_list
    ∧ getitem Sample.docsum_38328712 "PubDate" = Ok pub_date
    ∧ getitem (PDict row) "PubDate" = Ok pub_date.
Proof.
  exact (identity_fields_round_trip Sample.pubmed 2 Sample.found Sample.found_docsums 4
           Sample.found_rows 1 Sample.docsum_38328712
           sample_found_response eq_refl eq_refl).
Defined.

(** C6.  The table keeps the order of the response: it has as many rows as
    the response has records, and its i-th row is the one built from the
    i-th record (in particular it carries that record's Id). *)
Theorem rows_in_source_order {St} (svc : service St) s id_list articles s' rows :
  summary_response svc s id_list articles s' →
  (run svc (article_details id_list) s).1 = Ok rows →
  length rows = length articles
  ∧ ∀ i row, rows !! i = Some row →
      ∃ article id, articles !! i = Some article
        ∧ article_info article = Ok row
        ∧ getitem article "Id" = Ok id ∧ dict_lookup "ID" row = Some id.
Proof.
  intros Hresp Hrows%(article_details_rows _ _ _ _ _ _ Hresp). split.
  - symmetry. by eapply Forall2_length.
  - intros i row Hi.
    destruct (Forall2_lookup_r _ _ _ _ _ Hrows Hi) as (article & Ha & Hinfo).
    pose proof Hinfo as (d & id & ? & ? & ? & -> & Hid & _ & _ & _ & ->)%article_info_Ok.
    exists (PDict d), id. simpl. by rewrite Hid.
Qed.

Lemma rows_in_source_order_witness :
  length Sample.found_rows = length Sample.found_docsums
  ∧ ∀ i row, Sample.found_rows !! i = Some row →
      ∃ article id, Sample.found_docsums !! i = Some article
        ∧ article_info article = Ok row
        ∧ getitem article "Id" = Ok id ∧ dict_lookup "ID" row = Some id.
Proof.
  exact (rows_in_source_order Sample.pubmed 2 Sample.found Sample.found_docsums 4
           Sample.found_rows sample_found_response eq_refl).
Defined.

(** C9.  The Link PubMed field of a row is the PubMed address followed by
    the rendering of the source record's Id, which is also the row's ID: for
    an Id that is a string, the address followed by that string. *)
Theorem link_from_id {St} (svc : service St) s id_list articles s' rows i row :
  summary_response svc s id_list articles s' →
  (run svc (article_details id_list) s).1 = Ok rows →
  rows !! i = Some row →
  ∃ article id,
    articles !! i = Some article
    ∧ getitem article "Id" = Ok id
    ∧ dict_lookup "ID" row = Some id
    ∧ dict_lookup "Link PubMed" row
      = Some (PStr ("https://www.ncbi.nlm.nih.gov/pubmed/" +:+ pystr id))
    ∧ ∀ uid, id = PStr uid →
        dict_lookup "Link PubMed" row
        = Some (PStr ("https://www.ncbi.nlm.nih.gov/pubmed/" +:+ uid)).
Proof.
  intros Hresp Hrows%(article_details_rows _ _ _ _ _ _ Hresp) Hi.
  destruct (Forall2_lookup_r _ _ _ _ _ Hrows Hi) as (article & Ha & Hinfo).
  apply article_info_Ok in Hinfo as (d & id & ? & ? & ? & -> & Hid & _ & _ & _ & ->).
  exists (PDict d), id. simpl. rewrite Hid. repeat split; try done. by intros uid ->.
Qed.

Lemma link_from_id_witness :
  ∃ article id,
    Sample.found_docsums !! 0 = Some article
    ∧ getitem article "Id" = Ok id
    ∧ dict_lookup "ID" (Sample.found_rows !!! 0) = Some id
    ∧ dict_lookup "Link PubMed" (Sample.found_rows !!! 0)
      = Some (PStr ("https://www.ncbi.nlm.nih.gov/pubmed/" +:+ pystr id))
    ∧ ∀ uid, id = PStr uid →
        dict_lookup "Link PubMed" (Sample.found_rows !!! 0)
        = Some (PStr ("https://www.ncbi.nlm.nih.gov/pubmed/" +:+ uid)).
Proof.
  exact (link_from_id Sample.pubmed 2 Sample.found Sample.found_docsums 4
           Sample.found_rows 0 (Sample.found_rows !!! 0)
           sample_found_response eq_refl eq_refl).
Defined.

(** ** The search *)

(** C8.  The first call [search_articles] makes is the search, and its term
    is the rendering of [key_words], then "[Title/Abstract] AND ", then the
    rendering of [date] (a string renders as itself), then "[PDAT]".  A list
    of strings renders as its bracketed list of quoted items, so the terms
    are not joined: the notebook's query asks for
    "['cancer', 'brain'][Title/Abstract] AND 2023[PDAT]". *)
Theorem search_term {St} (svc : service St) s key_words date max_results :
  (∃ rest,
     calls svc (search_articles key_words date max_results) s
     = Request (esearch "pubmed"
                  (pystr key_words +:+ "[Title/Abstract] AND " +:+ pystr date +:+ "[PDAT]")
                  (default (PInt 10) max_results)) :: rest
     ∧ (rest = [] ∨ ∃ search, rest = [Request (read search)]))
  ∧ (∀ d, pystr (PStr d) = d)
  ∧ (∀ terms : list string,
       pystr (PList (PStr <$> terms)) = "[" +:+ join ", " (str_repr <$> terms) +:+ "]")
  ∧ pystr (PList [PStr "cancer"; PStr "brain"]) +:+ "[Title/Abstract] AND "
      +:+ pystr (PStr "2023") +:+ "[PDAT]"
    = "['cancer', 'brain'][Title/Abstract] AND 2023[PDAT]".
Proof.
  split; [apply calls_search_articles|]. repeat split.
  intros terms. simpl. by rewrite pyrepr_strs.
Qed.

(** C10.  Called without [max_results], [search_articles] asks the search
    for [retmax] 10; against a service that honours [retmax], the UID list
    it returns is a list of at most 10 items. *)
Theorem default_page_size {St} (svc : service St) s key_words date :
  honours_retmax svc →
  (∃ term rest,
     calls svc (search_articles key_words date None) s
     = Request (esearch "pubmed" term (PInt 10)) :: rest)
  ∧ ∀ id_list,
      (run svc (search_articles key_words date None) s).1 = Ok id_list →
      ∃ items, id_list = PList items ∧ length items ≤ 10.
Proof.
  intros Hmax. split.
  - destruct (calls_search_articles svc s key_words date None) as (rest & Hcalls & _).
    by eexists _, rest.
  - intros id_list Hrun.
    destruct (run svc (search_articles key_words date None) s) as [r s'] eqn:Hrun'.
    simpl in Hrun. subst r.
    apply search_articles_inv in Hrun'
      as (term & search & s1 & record_search & Hs & Hr & Hids).
    destruct (Hmax _ _ _ _ _ _ _ _ _ Hs Hr Hids) as (items & -> & Hlen).
    exists items. split; [done|]. lia.
Qed.

Lemma default_page_size_witness :
  (∃ term rest,
     calls Sample.pubmed (search_articles key_words date None) 0
     = Request (esearch "pubmed" term (PInt 10)) :: rest)
  ∧ ∀ id_list,
      (run Sample.pubmed (search_articles key_words date None) 0).1 = Ok id_list →
      ∃ items, id_list = PList items ∧ length items ≤ 10.
Proof.
  exact (default_page_size Sample.pubmed 0 key_words date sample_honours_retmax).
Defined.

(** ** The join *)

Section join_facts.
Context {V : Type} `{EqDecision V}.
Implicit Types (A B : list (gmap string V)) (K : string) (k : V).

Lemma elem_of_key_values K B k :
  k ∈ Tabulator.key_values K B ↔ ∃ b, b ∈ B ∧ b !! K = Some k.
Proof. apply list_elem_of_omap. Qed.

Lemma elem_of_matching K B k b :
  b ∈ Tabulator.matching K k B ↔ b ∈ B ∧ b !! K = Some k.
Proof. unfold Tabulator.matching. rewrite list_elem_of_filter. tauto. Qed.

Lemma matching_absent K B k :
  k ∉ Tabulator.key_values K B → Tabulator.matching K k B = [].
Proof.
  intros Hk. destruct (Tabulator.matching K k B) as [|b bs] eqn:Hm; [done|].
  destruct Hk. apply elem_of_key_values. exists b.
  apply elem_of_matching. rewrite Hm. left.
Qed.

(** With unique keys on the right, a key that occurs there selects exactly
    one row. *)
Lemma matching_unique K B k b :
  Tabulator.unique_keys K B → b ∈ B → b !! K = Some k →
  Tabulator.matching K k B = [b].
Proof.
  unfold Tabulator.unique_keys, Tabulator.matching.
  induction B as [|b' B IH]; intros Huniq Hb Hk; [by apply elem_of_nil in Hb|].
  rewrite filter_cons. unfold Tabulator.key_values in Huniq. simpl in Huniq.
  destruct (b' !! K) as [k'|] eqn:Hk'; simpl in Huniq.
  - apply NoDup_cons in Huniq as [Hfresh Huniq].
    apply elem_of_cons in Hb as [->|Hb].
    + rewrite Hk' in Hk. injection Hk as ->. rewrite decide_True by done.
      f_equal. by apply matching_absent.
    + rewrite decide_False; [by apply IH|].
      intros [= ->]. apply Hfresh, elem_of_key_values. by exists b.
  - apply elem_of_cons in Hb as [->|Hb]; [congruence|].
    rewrite decide_False by done. by apply IH.
Qed.

Lemma bind_singletons {X} (l : list X) (g : X → list X) :
  (∀ x, x ∈ l → g x = [x]) → l ≫= g = l.
Proof.
  induction l as [|x l IH]; intros Hg; simpl; [done|].
  rewrite Hg by left. simpl. f_equal. apply IH. intros y Hy. apply Hg. by right.
Qed.

(** C7.  When the values of key K are unique in B, joining A with B on K and
    joining the result with B on K again gives the rows of the first join,
    in the same order and with the same multiplicities. *)
Theorem join_idempotent K A B :
  Tabulator.unique_keys K B →
  Tabulator.join K (Tabulator.join K A B) B = Tabulator.join K A B.
Proof.
  intros Huniq. unfold Tabulator.join at 1. apply bind_singletons.
  intros r (a & Hr & Ha)%list_elem_of_bind.
  destruct (a !! K) as [k|] eqn:Hk; [|by apply elem_of_nil in Hr].
  apply list_elem_of_fmap in Hr as (b & -> & [Hb Hbk]%elem_of_matching).
  rewrite (lookup_union_Some_l _ _ _ _ Hk), (matching_unique _ _ _ _ Huniq Hb Hbk).
  simpl. by rewrite <- (assoc_L (∪)), (idemp_L (∪)).
Qed.

End join_facts.

Example series_join :
  Tabulator.join "date" Series.ine Series.eu
  = [ {[ "date" := 202301%Z; "ine" := 58%Z; "eu" := 86%Z ]};
      {[ "date" := 202302%Z; "ine" := 60%Z; "eu" := 85%Z ]} ].
Proof. by vm_compute. Qed.

(** Without unique keys on the right the second join does grow. *)
Example join_grows_on_duplicate_keys :
  let B : list (gmap string Z) := [ {[ "date" := 1%Z ]}; {[ "date" := 1%Z; "eu" := 2%Z ]} ] in
  length (Tabulator.join "date" [ {[ "date" := 1%Z ]} ] B) = 2
  ∧ length (Tabulator.join "date" (Tabulator.join "date" [ {[ "date" := 1%Z ]} ] B) B) = 4.
Proof. by vm_compute. Qed.

Lemma join_idempotent_witness :
  Tabulator.unique_keys "date" Series.eu
  ∧ Tabulator.join "date" (Tabulator.join "date" Series.ine Series.eu) Series.eu
    = Tabulator.join "date" Series.ine Series.eu.
Proof.
  assert (Huniq : Tabulator.unique_keys "date" Series.eu).
  { apply (bool_decide_unpack _). vm_compute. reflexivity. }
  exact (conj Huniq (join_idempotent "date" Series.ine Series.eu Huniq)).
Defined.

(** * Further properties *)

(** ** What [article_details] asks for *)

Lemma calls_bind {St A B} (svc : service St) (p : prog A) (f : A → prog B) s :
  calls svc (p ≫= f) s
  = calls svc p s ++ match run svc p s with
                     | (Ok a, s') => calls svc (f a) s'
                     | (Raise _, _) => []
                     end.
Proof.
  revert s. induction p as [[a|e]|X e k IH]; intros s; simpl; [done|done|].
  change (Vis e (λ x, prog_bind f (k x))) with (Vis e (λ x, k x ≫= f)).
  rewrite !calls_Vis. destruct (serve svc e s) as [[x|ex] s1]; simpl; [|done].
  by rewrite IH.
Qed.

Lemma all_str_strs (ss : list string) : all_str (PStr <$> ss) = Ok ss.
Proof. induction ss as [|s ss IH]; csimpl; [done|]. by rewrite IH. Qed.

Lemma all_str_raise items item :
  item ∈ items → (∀ uid, item ≠ PStr uid) → all_str items = Raise TypeError.
Proof.
  intros Hin Hnot. induction Hin as [item items|item item' items Hin IH]; simpl.
  - destruct item as [| | |uid| | |]; try done. by destruct (Hnot uid eq_refl).
  - destruct item'; try done. rewrite IH by done. reflexivity.
Qed.

(** The calls of [article_details]: none when the id list cannot be joined,
    else one summary request for the whole list and the read of its answer. *)
Lemma calls_article_details {St} (svc : service St) s id_list :
  match str_join "," id_list with
  | Raise e =>
      run svc (article_details id_list) s = (Raise e, s)
      ∧ calls svc (article_details id_list) s = []
  | Ok ids =>
      ∃ rest,
        calls svc (article_details id_list) s = Request (esummary "pubmed" ids) :: rest
        ∧ (rest = [] ∨ ∃ summary, rest = [Request (read summary)])
  end.
Proof.
  unfold article_details. destruct (str_join "," id_list) as [ids|e]; simpl; [|done].
  rewrite calls_Vis. eexists. split; [done|].
  destruct (serve svc _ s) as [[summary|ex] s1]; [|by left].
  right. exists summary. rewrite calls_Vis.
  destruct (serve svc _ s1) as [[record_summary|ex] s2]; [|done].
  by destruct (iter record_summary).
Qed.


(** X2.  When an item of the id list is not a string (a UID passed as an
    integer, say), [article_details] raises [TypeError] before calling the
    service at all. *)
Theorem non_string_id_raises_before_request {St} (svc : service St)
    s id_list items item :
  iter id_list = Ok items → item ∈ items → (∀ uid, item ≠ PStr uid) →
  run svc (article_details id_list) s = (Raise TypeError, s)
  ∧ calls svc (article_details id_list) s = [].
Proof.
  intros Hiter Hin Hnot.
  pose proof (calls_article_details svc s id_list) as Hcalls.
  unfold str_join in Hcalls. rewrite Hiter in Hcalls. simpl in Hcalls.
  by rewrite (all_str_raise _ _ Hin Hnot) in Hcalls.
Qed.

Lemma non_string_id_raises_before_request_witness :
  run Sample.pubmed (article_details (PList [PStr "38370347"; PInt 38328712])) 0
  = (Raise TypeError, 0)
  ∧ calls Sample.pubmed (article_details (PList [PStr "38370347"; PInt 38328712])) 0 = [].
Proof.
  apply (non_string_id_raises_before_request Sample.pubmed 0
           (PList [PStr "38370347"; PInt 38328712])
           [PStr "38370347"; PInt 38328712] (PInt 38328712) eq_refl).
  - apply list_elem_of_In. simpl. tauto.
  - done.
Defined.

(** X3.  Given one UID as a string where a list is expected,
    [article_details] asks for the summaries of its characters: the id
    parameter is the string with a comma between every two characters. *)
Theorem string_id_list_splits_into_characters {St} (svc : service St) s (uid : string) :
  ∃ rest,
    calls svc (article_details (PStr uid)) s
    = Request (esummary "pubmed" (join "," (chars uid))) :: rest
    ∧ (rest = [] ∨ ∃ summary, rest = [Request (read summary)]).
Proof.
  pose proof (calls_article_details svc s (PStr uid)) as Hcalls.
  unfold str_join in Hcalls. simpl in Hcalls. by rewrite all_str_strs in Hcalls.
Qed.

Example string_id_list : join "," (chars "38370347") = "3,8,3,7,0,3,4,7".
Proof. reflexivity. Qed.

Lemma comma_free_prefix (a b r1 r2 : string) :
  commas a = 0 → commas b = 0 →
  a +:+ "," +:+ r1 = b +:+ "," +:+ r2 → a = b ∧ r1 = r2.
Proof.
  revert b. induction a as [|c a IH]; intros [|c' b]; simpl.
  - by intros _ _ [= ?].
  - intros _ Hb [= <- _]. by rewrite decide_True in Hb.
  - intros Ha _ [= -> _]. by rewrite decide_True in Ha.
  - intros Ha Hb [= -> Hrest].
    destruct (IH b) as [-> ->]; [lia..|done|done].
Qed.

Lemma comma_free_whole (a b r : string) :
  commas a = 0 → a ≠ b +:+ "," +:+ r.
Proof. intros Ha ->. rewrite !commas_app in Ha. simpl in Ha. lia. Qed.

Lemma join_comma_free_inj (uids1 uids2 : list string) :
  Forall (λ uid, commas uid = 0) uids1 → Forall (λ uid, commas uid = 0) uids2 →
  uids1 ≠ [] → uids2 ≠ [] →
  join "," uids1 = join "," uids2 → uids1 = uids2.
Proof.
  intros H1. revert uids2.
  induction H1 as [|uid1 uids1 Huid1 H1 IH]; intros uids2 H2 Hne1 Hne2 Hjoin; [done|].
  destruct H2 as [|uid2 uids2 Huid2 H2]; [done|].
  destruct uids1 as [|uid1' uids1], uids2 as [|uid2' uids2].
  - simpl in Hjoin. by subst.
  - exfalso. by eapply (comma_free_whole uid1 uid2).
  - exfalso. symmetry in Hjoin. by eapply (comma_free_whole uid2 uid1).
  - apply comma_free_prefix in Hjoin as [-> Hrest]; [|done..].
    f_equal. by apply IH.
Qed.

(** X4.  The id parameter determines the id list: two non-empty lists of
    UIDs without commas that [article_details] joins to the same parameter
    are the same list. *)
Theorem id_parameter_injective (uids1 uids2 : list string) :
  Forall (λ uid, commas uid = 0) uids1 → Forall (λ uid, commas uid = 0) uids2 →
  uids1 ≠ [] → uids2 ≠ [] →
  str_join "," (PList (PStr <$> uids1)) = str_join "," (PList (PStr <$> uids2)) →
  uids1 = uids2.
Proof.
  intros H1 H2 Hne1 Hne2. unfold str_join. simpl. rewrite !all_str_strs. simpl.
  intros [= Hjoin]. by apply join_comma_free_inj.
Qed.

Lemma id_parameter_injective_witness :
  str_join "," (PList (PStr <$> ["38370347"; "38328712"])) = Ok "38370347,38328712"
  ∧ ["38370347"; "38328712"] = ["38370347"; "38328712"].
Proof.
  split; [reflexivity|].
  apply (id_parameter_injective ["38370347"; "38328712"] ["38370347"; "38328712"]);
    repeat constructor; done.
Defined.

(** ** What a row holds *)

(** X5.  A DOI the source record has is copied to the row as it is. *)
Theorem doi_passthrough {St} (svc : service St)
    s id_list articles s' rows i article doi :
  summary_response svc s id_list articles s' →
  (run svc (article_details id_list) s).1 = Ok rows →
  articles !! i = Some article →
  getitem article "DOI" = Ok doi →
  ∃ row, rows !! i = Some row ∧ dict_lookup "DOI" row = Some doi.
Proof.
  intros Hresp Hrows%(article_details_rows _ _ _ _ _ _ Hresp) Hi Hdoi.
  destruct (Forall2_lookup_l _ _ _ _ _ Hrows Hi) as (row & Hrow & Hinfo).
  apply article_info_Ok in Hinfo as (d & ? & ? & ? & ? & -> & _ & _ & _ & _ & ->).
  eexists. split; [done|]. simpl in *. by destruct (dict_lookup "DOI" d); simplify_eq.
Qed.

Lemma doi_passthrough_witness :
  ∃ row, Sample.found_rows !! 0 = Some row
         ∧ dict_lookup "DOI" row = Some (PStr "10.3389/fonc.2023.1215426").
Proof.
  exact (doi_passthrough Sample.pubmed 2 Sample.found Sample.found_docsums 4
           Sample.found_rows 0 Sample.docsum_38370347 (PStr "10.3389/fonc.2023.1215426")
           sample_found_response eq_refl eq_refl eq_refl).
Defined.

Lemma dict_lookup_app key d d' :
  dict_lookup key (d ++ d')
  = match dict_lookup key d with Some v => Some v | None => dict_lookup key d' end.
Proof.
  induction d as [|[k v] d IH]; simpl; [by destruct (dict_lookup key d')|].
  by case_decide.
Qed.

(** X6.  The table cannot tell a record without a DOI from one whose DOI is
    the text "No disponible": both give the same row (or the same
    exception). *)
Theorem absent_doi_indistinguishable d :
  dict_lookup "DOI" d = None →
  article_info (PDict (d ++ [("DOI", PStr "No disponible")])) = article_info (PDict d).
Proof.
  intros Hdoi. unfold article_info. simpl. rewrite !dict_lookup_app, Hdoi. simpl.
  by destruct (dict_lookup "Id" d), (dict_lookup "Title" d),
    (dict_lookup "AuthorList" d), (dict_lookup "PubDate" d).
Qed.

Lemma absent_doi_indistinguishable_witness :
  article_info (PDict ([("Id", PStr "1"); ("Title", PStr "t"); ("AuthorList", PList []);
                        ("PubDate", PStr "2023")] ++ [("DOI", PStr "No disponible")]))
  = article_info (PDict [("Id", PStr "1"); ("Title", PStr "t"); ("AuthorList", PList []);
                         ("PubDate", PStr "2023")]).
Proof.
  exact (absent_doi_indistinguishable
           [("Id", PStr "1"); ("Title", PStr "t"); ("AuthorList", PList []);
            ("PubDate", PStr "2023")] eq_refl).
Defined.

(** X7.  A row depends on nothing but what the record holds under Id,
    Title, AuthorList, PubDate and DOI: two records that agree on these
    five keys, whatever else they hold and in whatever order, give the same
    row (or the same exception). *)
Theorem row_ignores_other_fields d1 d2 :
  (∀ key, key ∈ ["Id"; "Title"; "AuthorList"; "PubDate"; "DOI"] →
          dict_lookup key d1 = dict_lookup key d2) →
  article_info (PDict d1) = article_info (PDict d2).
Proof.
  intros Hsame. unfold article_info. simpl.
  rewrite <- !(Hsame _) by (apply list_elem_of_In; simpl; tauto). done.
Qed.

Lemma row_ignores_other_fields_witness :
  article_info (PDict [("Source", PStr "Cancer Lett"); ("Id", PStr "38328712");
                       ("PubDate", PStr "2024 Jan"); ("AuthorList", PList []);
                       ("Title", PStr "Experimental models")])
  = article_info (PDict [("Title", PStr "Experimental models"); ("Id", PStr "38328712");
                         ("AuthorList", PList []); ("PubDate", PStr "2024 Jan")]).
Proof.
  apply row_ignores_other_fields. intros key Hkey.
  repeat (apply elem_of_cons in Hkey as [->|Hkey]; [reflexivity|]).
  by apply elem_of_nil in Hkey.
Defined.

(** X8.  The loop of [article_details] on two batches of records one after
    the other builds the rows of the first followed by the rows of the
    second, and fails where the first of them fails. *)
Theorem table_of_concatenation articles1 articles2 :
  for_article (articles1 ++ articles2) []
  = (rows1 ← for_article articles1 [];
     rows2 ← for_article articles2 [];
     Ok (rows1 ++ rows2)).
Proof.
  induction articles1 as [|article rest IH]; simpl.
  - by destruct (for_article articles2 []).
  - destruct (article_info article) as [info|e]; simpl; [|done].
    rewrite (for_article_acc (rest ++ articles2)), (for_article_acc rest), IH.
    destruct (for_article rest []) as [rows1|e]; simpl; [|done].
    by destruct (for_article articles2 []).
Qed.

(** X9.  Records with different UID strings get different links. *)
Theorem links_distinct article1 article2 row1 row2 uid1 uid2 :
  article_info article1 = Ok row1 → article_info article2 = Ok row2 →
  getitem article1 "Id" = Ok (PStr uid1) → getitem article2 "Id" = Ok (PStr uid2) →
  uid1 ≠ uid2 →
  dict_lookup "Link PubMed" row1 ≠ dict_lookup "Link PubMed" row2.
Proof.
  intros (d1 & id1 & ? & ? & ? & -> & Hid1 & _ & _ & _ & ->)%article_info_Ok
         (d2 & id2 & ? & ? & ? & -> & Hid2 & _ & _ & _ & ->)%article_info_Ok.
  simpl. rewrite Hid1, Hid2. intros [= ->] [= ->] Hne [= Hlink]. done.
Qed.

Lemma links_distinct_witness :
  "38370347" ≠ "38328712"
  ∧ dict_lookup "Link PubMed" (Sample.found_rows !!! 0)
    ≠ dict_lookup "Link PubMed" (Sample.found_rows !!! 1).
Proof.
  split; [done|].
  refine (links_distinct Sample.docsum_38370347 Sample.docsum_38328712 _ _
            "38370347" "38328712" eq_refl eq_refl eq_refl eq_refl _).
  done.
Defined.

(** ** The calls of the pipeline *)


(** X11.  When the search finds nothing, the pipeline still sends a summary
    request, with an empty id parameter: no step between the search and
    [article_details] looks at the list. *)
Theorem empty_search_still_asks_for_summaries {St} (svc : service St)
    s key_words date s1 :
  run svc (search_articles key_words date None) s = (Ok (PList []), s1) →
  ∃ search rest,
    calls svc (pipeline key_words date) s
    = [Request (esearch "pubmed"
                  (pystr key_words +:+ "[Title/Abstract] AND " +:+ pystr date +:+ "[PDAT]")
                  (PInt 10));
       Request (read search);
       Request (esummary "pubmed" "")] ++ rest.
Proof.
  intros Hrun. unfold pipeline. rewrite calls_bind, Hrun.
  pose proof (calls_article_details svc s1 (PList [])) as (rest & -> & _).
  revert Hrun. unfold search_articles. simpl. rewrite calls_Vis.
  destruct (serve svc _ s) as [[search|ex] s0]; [|done].
  rewrite calls_Vis. destruct (serve svc _ s0) as [[record_search|ex] s2]; [|done].
  intros _. by exists search, rest.
Qed.

Lemma empty_search_still_asks_for_summaries_witness :
  ∃ search rest,
    calls Barren.pubmed (pipeline key_words date) 0
    = [Request (esearch "pubmed"
                  (pystr key_words +:+ "[Title/Abstract] AND " +:+ pystr date +:+ "[PDAT]")
                  (PInt 10));
       Request (read search);
       Request (esummary "pubmed" "")] ++ rest.
Proof.
  exact (empty_search_still_asks_for_summaries Barren.pubmed 0 key_words date 2 eq_refl).
Defined.

Example barren_pipeline :
  run Barren.pubmed (pipeline key_words date) 0 = (Raise (LibraryError "HTTPError"), 3).
Proof. reflexivity. Qed.

(** ** Running cells *)



(** ** Counting requests *)






















(** ** The cells *)

(** X12.  With nothing found (an empty list, or any other false value of
    [id_list]), cell 22 makes no call at all: it prints that no articles
    were found and ends. *)
Theorem no_articles_no_fetch {St} (w : world St) s id_list :
  truthy id_list = false →
  run_cell w (cell_22 id_list) s
  = (Returns tt, s, [Printed (newline +:+ "No articles found." +:+ newline)]).
Proof. intros Hfalse. unfold cell_22. by rewrite Hfalse. Qed.

Lemma no_articles_no_fetch_witness :
  run_cell Lab.libraries (cell_22 (PList [])) 0
  = (Returns tt, 0, [Printed (newline +:+ "No articles found." +:+ newline)]).
Proof. exact (no_articles_no_fetch Lab.libraries 0 (PList []) eq_refl). Defined.


Example lab_cell_22 :
  run_cell Lab.libraries (cell_22 Sample.found) 0
  = (Returns tt, 2,
     [Printed (newline +:+ "First article found summary:" +:+ newline);
      Called (efetch "pubmed" (PStr "38370347") "abstract" "text");
      Called (handle_read "efetch:38370347");
      Printed (Lab.abstract +:+ newline)]).
Proof. reflexivity. Qed.

(** X14.  When [pubmed_info] returns, its first result has exactly the
    keys Dbname, Menuname, Description, Dbbuild, Count and Lastupdate, and
    holds under them what the DbInfo entry of the parsed answer holds under
    DbName, MenuName, Description, DbBuild, Count and LastUpdate; its second
    result is the table built from DbInfo's FieldList. *)
Theorem df_main_fields {St} (w : world St) s df_main df_field_list s' t :
  run_cell w pubmed_info s = (Returns (df_main, df_field_list), s', t) →
  ∃ info s1 record_info s2 db_info field_list,
    respond w (einfo (Some "pubmed")) s = (Ok info, s1)
    ∧ respond w (entrez (read info)) s1 = (Ok record_info, s2)
    ∧ getitem record_info "DbInfo" = Ok db_info
    ∧ dict_keys df_main
      = ["Dbname"; "Menuname"; "Description"; "Dbbuild"; "Count"; "Lastupdate"]
    ∧ getitem db_info "DbName" = getitem (PDict df_main) "Dbname"
    ∧ getitem db_info "MenuName" = getitem (PDict df_main) "Menuname"
    ∧ getitem db_info "Description" = getitem (PDict df_main) "Description"
    ∧ getitem db_info "DbBuild" = getitem (PDict df_main) "Dbbuild"
    ∧ getitem db_info "Count" = getitem (PDict df_main) "Count"
    ∧ getitem db_info "LastUpdate" = getitem (PDict df_main) "Lastupdate"
    ∧ getitem db_info "FieldList" = Ok field_list
    ∧ respond w (DataFrame field_list) s2 = (Ok df_field_list, s').
Proof.
  unfold pubmed_info. simpl.
  destruct (respond w (einfo (Some "pubmed")) s) as [[info|ex] s1] eqn:Hinfo; [|done].
  simpl. destruct (respond w (entrez (read info)) s1) as [[record_info|ex] s2] eqn:Hread;
    [|done].
  simpl. destruct (getitem record_info "DbInfo") as [db_info|e] eqn:Hdb; [|done].
  simpl. destruct (getitem db_info "DbName") as [db_name|e] eqn:H1; [|done].
  simpl. destruct (getitem db_info "MenuName") as [menu_name|e] eqn:H2; [|done].
  simpl. destruct (getitem db_info "Description") as [description|e] eqn:H3; [|done].
  simpl. destruct (getitem db_info "DbBuild") as [db_build|e] eqn:H4; [|done].
  simpl. destruct (getitem db_info "Count") as [count|e] eqn:H5; [|done].
  simpl. destruct (getitem db_info "LastUpdate") as [last_update|e] eqn:H6; [|done].
  simpl. destruct (getitem db_info "FieldList") as [field_list|e] eqn:H7; [|done].
  simpl. destruct (respond w (DataFrame field_list) s2) as [[df|ex] s3] eqn:Hdf; [|done].
  intros [= <- <- <- <-].
  exists info, s1, record_info, s2, db_info, field_list. by repeat split.
Qed.

Lemma df_main_fields_witness :
  ∃ df_main df_field_list info s1 record_info s2 db_info field_list,
    (run_cell Lab.libraries pubmed_info 0).1 = (Returns (df_main, df_field_list), 3)
    ∧ respond Lab.libraries (einfo (Some "pubmed")) 0 = (Ok info, s1)
    ∧ respond Lab.libraries (entrez (read info)) s1 = (Ok record_info, s2)
    ∧ getitem record_info "DbInfo" = Ok db_info
    ∧ dict_keys df_main
      = ["Dbname"; "Menuname"; "Description"; "Dbbuild"; "Count"; "Lastupdate"]
    ∧ getitem db_info "DbName" = getitem (PDict df_main) "Dbname"
    ∧ getitem db_info "MenuName" = getitem (PDict df_main) "Menuname"
    ∧ getitem db_info "Description" = getitem (PDict df_main) "Description"
    ∧ getitem db_info "DbBuild" = getitem (PDict df_main) "Dbbuild"
    ∧ getitem db_info "Count" = getitem (PDict df_main) "Count"
    ∧ getitem db_info "LastUpdate" = getitem (PDict df_main) "Lastupdate"
    ∧ getitem db_info "FieldList" = Ok field_list
    ∧ respond Lab.libraries (DataFrame field_list) s2 = (Ok df_field_list, 3).
Proof.
  do 2 eexists.
  destruct (df_main_fields Lab.libraries 0 _ _ 3 _ eq_refl)
    as (info & s1 & record_info & s2 & db_info & field_list & H).
  exists info, s1, record_info, s2, db_info, field_list. split; [reflexivity|exact H].
Defined.

(** X15.  When the DbInfo entry lacks one of the seven keys [pubmed_info]
    reads, [pubmed_info] ends with a [KeyError] for a key DbInfo lacks,
    after the [einfo] request and the read of its answer and before any
    table is built. *)
Theorem pubmed_info_missing_field {St} (w : world St)
    s info s1 record_info s2 db_info key :
  respond w (einfo (Some "pubmed")) s = (Ok info, s1) →
  respond w (entrez (read info)) s1 = (Ok record_info, s2) →
  getitem record_info "DbInfo" = Ok (PDict db_info) →
  key ∈ ["DbName"; "MenuName"; "Description"; "DbBuild"; "Count"; "LastUpdate";
         "FieldList"] →
  dict_lookup key db_info = None →
  ∃ missing,
    dict_lookup missing db_info = None
    ∧ run_cell w pubmed_info s
      = (Raises (Exn (KeyError missing)), s2,
         [Called (einfo (Some "pubmed")); Called (entrez (read info))]).
Proof.
  intros Hinfo Hread Hdb Hkey Hnone. unfold pubmed_info. simpl.
  rewrite Hinfo. simpl. rewrite Hread. simpl. rewrite Hdb. simpl.
  destruct (dict_lookup "DbName" db_info) eqn:H1; simpl; [|by eexists].
  destruct (dict_lookup "MenuName" db_info) eqn:H2; simpl; [|by eexists].
  destruct (dict_lookup "Description" db_info) eqn:H3; simpl; [|by eexists].
  destruct (dict_lookup "DbBuild" db_info) eqn:H4; simpl; [|by eexists].
  destruct (dict_lookup "Count" db_info) eqn:H5; simpl; [|by eexists].
  destruct (dict_lookup "LastUpdate" db_info) eqn:H6; simpl; [|by eexists].
  destruct (dict_lookup "FieldList" db_info) eqn:H7; simpl; [|by eexists].
  exfalso.
  repeat (apply elem_of_cons in Hkey as [->|Hkey]; [congruence|]).
  by apply elem_of_nil in Hkey.
Qed.

Lemma pubmed_info_missing_field_witness :
  ∃ missing,
    dict_lookup missing [("DbName", PStr "pubmed"); ("MenuName", PStr "PubMed");
                         ("Description", PStr "PubMed bibliographic record")] = None
    ∧ run_cell Lab.short_libraries pubmed_info 0
      = (Raises (Exn (KeyError missing)), 2,
         [Called (einfo (Some "pubmed")); Called (entrez (read "einfo:pubmed"))]).
Proof.
  refine (pubmed_info_missing_field Lab.short_libraries 0 "einfo:pubmed" 1 _ 2 _ "Count"
            eq_refl eq_refl eq_refl _ eq_refl).
  apply list_elem_of_In. simpl. tauto.
Defined.

Example short_pubmed_info :
  (run_cell Lab.short_libraries pubmed_info 0).1 = (Raises (Exn (KeyError "DbBuild")), 2).
Proof. reflexivity. Qed.


(** The bound is reached, and the run prints what the notebook recorded. *)
Example lab_run_all :
  (run_cell Lab.libraries run_all 0).1 = (Returns tt, 13)
  ∧ requests (run_cell Lab.libraries run_all 0).2 = 5
  ∧ filter (λ ev, is_request ev = true) (run_cell Lab.libraries run_all 0).2
    = [Called (einfo None);
       Called (einfo (Some "pubmed"));
       Called (entrez (esearch "pubmed"
                         "['cancer', 'brain'][Title/Abstract] AND 2023[PDAT]" (PInt 10)));
       Called (entrez (esummary "pubmed" "38370347,38328712"));
       Called (efetch "pubmed" (PStr "38370347") "abstract" "text")].
Proof. by vm_compute. Qed.

Example lab_cell_20 :
  (run_cell Lab.libraries cell_20 0).2
  = [Printed (newline +:+ "Search for articles on '['cancer', 'brain']' published from 2023:"
              +:+ newline);
     Called (entrez (esearch "pubmed"
                       "['cancer', 'brain'][Title/Abstract] AND 2023[PDAT]" (PInt 10)));
     Called (entrez (read "esearch:2"));
     Printed ("IDs of the articles found:  ['38370347', '38328712']" +:+ newline)].
Proof. reflexivity. Qed.

Example lab_cell_19_prints :
  omap (λ ev, match ev with Printed text => Some text | _ => None end)
    (run_cell Lab.libraries cell_19 0).2
  = ["Available databases in Entrez:" +:+ newline;
     "['pubmed', 'protein', 'nuccore']" +:+ newline;
     "--------------------" +:+ newline;
     "Main information in PubMed:" +:+ newline
       +:+ " {'Dbname': 'pubmed', 'Menuname': 'PubMed', 'Description': 'PubMed bibliographic record', 'Dbbuild': 'Build-2024.09.06.23.59', 'Count': '37708996', 'Lastupdate': '2024/09/06 23:59'}"
       +:+ newline;
     newline +:+ "database info:" +:+ newline +:+ newline].
Proof. reflexivity. Qed.

Lemma first_abstract_outcome {St} (w : world St) s article_id :
  let o := (run_cell w (print [PStr (newline +:+ "First article found summary:")];;
                        article_abstract article_id;; mret tt) s).1.1 in
  o = Returns tt ∨ ∃ e, o = Raises (Exn e).
Proof.
  simpl.
  destruct (respond w (efetch "pubmed" article_id "abstract" "text") s)
    as [[fetch|ex] s1]; simpl; [|right; by eexists].
  destruct (respond w (handle_read fetch) s1) as [[abstract|ex] s2]; simpl;
    [by left|right; by eexists].
Qed.

(** X17.  Cell 22 never ends with an [IndexError]: its test of [id_list]
    lets the subscript run on non-empty values only.  It returns, or ends
    with an exception of a library call or a [TypeError], or, for a dict,
    with the [KeyError] of the key 0. *)
Theorem guard_prevents_index_error {St} (w : world St) s id_list :
  let o := (run_cell w (cell_22 id_list) s).1.1 in
  o = Returns tt ∨ (∃ e, o = Raises (Exn e)) ∨ o = Raises (IntKeyError 0).
Proof.
  unfold cell_22. destruct (truthy id_list) eqn:Htruthy; [|by left].
  destruct id_list as [|b|n|str|items|items|d]; try done.
  - right. left. by eexists.
  - right. left. by eexists.
  - destruct str as [|c str]; [done|].
    destruct (first_abstract_outcome w s (PStr (String c ""))) as [Ho|Ho];
      [by left|right; by left].
  - destruct items as [|first others]; [done|].
    destruct (first_abstract_outcome w s first) as [Ho|Ho]; [by left|right; by left].
  - destruct items as [|first others]; [done|].
    destruct (first_abstract_outcome w s first) as [Ho|Ho]; [by left|right; by left].
  - right. by right.
Qed.
